(** * slack_auth_proxy: the authentication gate of [oauthserver.go]

    A shallow embedding of [OAuthServer] (construction, [ServeHTTP] and the
    handlers it dispatches to) together with the properties of the gate.

    A handler of the Go program writes to an [http.ResponseWriter] and calls
    out to collaborators (the identity provider, the template set, the reverse
    proxy).  Here a handler is a function from the request to the list of
    those calls, in program order: the [Event]s below.  What each library
    call does with its arguments is the library's business; the embedding
    stops at the call and records its arguments.  [log.Printf] lines only
    write to the process log and are left out of the list. *)

From Stdlib Require Import ZArith Lia Bool List Ascii String DecimalString.
From stdpp Require Import base option list gmap strings.

Import ListNotations.
Local Open Scope string_scope.
Local Open Scope Z_scope.

(** ** Package [strings] *)

Module strings.

(** [strings.HasPrefix(s, prefix)] *)
Definition HasPrefix (s pre : string) : bool := String.prefix pre s.

(** Bytes of [s] from index [n] on: the Go slice [s[n:]]. *)
Fixpoint drop (n : nat) (s : string) : string :=
  match n, s with
  | O, _ => s
  | S n', String _ s' => drop n' s'
  | S _, EmptyString => EmptyString
  end.

(** [strings.HasSuffix(s, suffix)]:
    [len(s) >= len(suffix) && s[len(s)-len(suffix):] == suffix] *)
Definition HasSuffix (s suf : string) : bool :=
  (String.length suf <=? String.length s)%nat
  && String.eqb (drop (String.length s - String.length suf) s) suf.

(** [strings.TrimPrefix(s, prefix)] *)
Definition TrimPrefix (s pre : string) : string :=
  if HasPrefix s pre then drop (String.length pre) s else s.

(** [strings.Replace(s, old, new, 1)] for a non-empty [old]: the first
    occurrence of [old] in [s] is replaced by [new]. *)
Fixpoint Replace1 (s old new : string) : string :=
  if String.prefix old s then new ++ drop (String.length old) s
  else match s with
       | EmptyString => EmptyString
       | String c s' => String c (Replace1 s' old new)
       end.

(** [strings.Split(s, sep)] for a one-byte separator: the pieces of [s]
    between the occurrences of [sep], at least one piece. *)
Fixpoint Split (s : string) (sep : ascii) : list string :=
  match s with
  | EmptyString => [EmptyString]
  | String c s' =>
      if Ascii.eqb c sep then EmptyString :: Split s' sep
      else match Split s' sep with
           | [] => [String c EmptyString]
           | p :: ps => String c p :: ps
           end
  end.

(** [strings.Split(s, sep)[0]]; the index is always in range. *)
Definition Split0 (s : string) (sep : ascii) : string :=
  match Split s sep with
  | [] => EmptyString
  | p :: _ => p
  end.

(** Whether the byte [c] occurs in [s]. *)
Fixpoint ContainsByte (s : string) (c : ascii) : bool :=
  match s with
  | EmptyString => false
  | String d s' => Ascii.eqb d c || ContainsByte s' c
  end.

End strings.

(** Go's [error] values: [None] is [nil], [Some msg] an error whose
    [Error()] text is [msg]. *)
Definition error : Type := option string.

(** A Go result pair of a pointer and an [error], where the pointer is
    [nil] exactly when the error is not. *)
Inductive result (A : Type) : Type :=
| Ok (a : A)
| Err (msg : string).
Arguments Ok {A} a.
Arguments Err {A} msg.

(** ** Package [time]: instants and durations in nanoseconds *)

Module time.
Definition Time : Type := Z.
Definition Duration : Type := Z.
Definition Nanosecond : Duration := 1.
Definition Second : Duration := 1000000000 * Nanosecond.
Definition Minute : Duration := 60 * Second.
Definition Hour : Duration := 60 * Minute.
(** [t.Add(d)] *)
Definition Add (t : Time) (d : Duration) : Time := t + d.
(** [t.Before(u)] *)
Definition Before (t u : Time) : Prop := t < u.
End time.

(** ** Package [net/url] *)

Module url.
(** [url.URL], the fields the program and [RequestURI] read. *)
Record URL : Type := mkURL {
  Scheme : string;
  Opaque : string;
  Host : string;
  Path : string;
  RawPath : string;
  ForceQuery : bool;
  RawQuery : string
}.

Definition with_Path (u : URL) (p : string) : URL :=
  {| Scheme := Scheme u; Opaque := Opaque u; Host := Host u; Path := p;
     RawPath := RawPath u; ForceQuery := ForceQuery u; RawQuery := RawQuery u |}.

(** [url.Values]: each key with its values, in order. *)
Definition Values : Type := gmap string (list string).

(** [v.Get(key)]: the first value of [key], [""] when there is none. *)
Definition Get (v : Values) (key : string) : string :=
  match v !! key with
  | Some (x :: _) => x
  | _ => ""
  end.
End url.

(** ** Package [slack] (the provider client) *)

Module slack.
(** Modelled from the spec: [slack.Auth] is declared in the [slack]
    package, which the source imports; its fields are those of the spec's
    Identity record.  The source reads [Username] only. *)
Record Auth : Type := mkAuth {
  UserId : string;
  Username : string;
  TeamId : string;
  Token : string;
  IssuedAt : Z
}.

(** [new(slack.Auth)]: every field at its zero value. *)
Definition new_Auth : Auth :=
  {| UserId := ""; Username := ""; TeamId := ""; Token := ""; IssuedAt := 0 |}.

(** The access token record of [RedeemCode]; the source reads [Token]. *)
Record Access : Type := mkAccess { AccessToken : string }.

(** [*slack.OAuthClient], as its two methods. *)
Record OAuthClient : Type := mkOAuthClient {
  LoginUrl : string -> string;
  RedeemCode : string -> result Access
}.
End slack.

(** ** Package [securecookie] *)

Module securecookie.
(** [*securecookie.SecureCookie], as its two methods at type [slack.Auth].
    [Encode] returns both results of the Go call, since the caller reads
    the string whatever the error is.  [Decode name value dst] takes the
    record [dst] points to and returns what it holds afterwards, with the
    error. *)
Record SecureCookie : Type := mkSecureCookie {
  Encode : string -> slack.Auth -> string * error;
  Decode : string -> string -> slack.Auth -> slack.Auth * error
}.
End securecookie.

(** ** Package [net/http] *)

Module http.
(** [http.Cookie], the fields the source sets. *)
Record Cookie : Type := mkCookie {
  Name : string;
  Value : string;
  Path : string;
  Domain : string;
  Expires : time.Time;
  HttpOnly : bool
}.

(** [http.Request].  [Cookies] are the name/value pairs of the Cookie
    header, in order.  [Form] and [FormErr] are what [req.ParseForm()]
    leaves in [req.Form] and returns: the library keeps the pairs it could
    parse also when it reports an error for another one. *)
Record Request : Type := mkRequest {
  Method : string;
  URL : url.URL;
  Host : string;
  Cookies : list (string * string);
  Form : url.Values;
  FormErr : error
}.

Definition with_URL (r : Request) (u : url.URL) : Request :=
  {| Method := Method r; URL := u; Host := Host r; Cookies := Cookies r;
     Form := Form r; FormErr := FormErr r |}.

(** [req.Cookie(name)]: the value of the first cookie called [name];
    [None] stands for [(nil, ErrNoCookie)]. *)
Fixpoint first_cookie (cs : list (string * string)) (name : string) : option string :=
  match cs with
  | [] => None
  | (n, v) :: cs' => if String.eqb n name then Some v else first_cookie cs' name
  end.

Definition Cookie_of (r : Request) (name : string) : option string :=
  first_cookie (Cookies r) name.

(** [req.ParseForm()] *)
Definition ParseForm (r : Request) : url.Values * error := (Form r, FormErr r).

(** [req.FormValue(key)] once [ParseForm] has run. *)
Definition FormValue (r : Request) (key : string) : string := url.Get (Form r) key.

(** The handlers the program creates or receives from the mux. *)
Inductive Handler : Type :=
| ReverseProxy (target : url.URL)     (* httputil.NewSingleHostReverseProxy(u) *)
| FileServer (dir : string)           (* http.FileServer(http.Dir(dir)) *)
| NotFoundHandler                     (* what the mux returns for no match *)
| RedirectHandler (to : string) (code : Z).

(** [*http.ServeMux]: the registered patterns with their handlers. *)
Definition ServeMux : Type := list (string * Handler).

Definition NewServeMux : ServeMux := [].

Definition registered (mux : ServeMux) (pattern : string) : bool :=
  existsb (fun e => String.eqb (fst e) pattern) mux.

(** [mux.Handle(pattern, handler)]: panics on an empty pattern and on a
    pattern that is already registered. *)
Definition Handle (mux : ServeMux) (pattern : string) (h : Handler) : result ServeMux :=
  if String.eqb pattern "" then Err "http: invalid pattern"
  else if registered mux pattern then Err ("http: multiple registrations for " ++ pattern)
  else Ok (mux ++ [(pattern, h)])%list.
End http.

(** ** Package [fmt] *)

Module fmt.
(** The verb [%d] at an [int]. *)
Definition d (n : Z) : string := DecimalString.NilEmpty.string_of_int (Z.to_int n).
End fmt.

(** ** The program: [oauthserver.go] *)

Definition signInPath : string := "/oauth2/sign_in".
Definition oauthStartPath : string := "/oauth2/start".
Definition oauthCallbackPath : string := "/oauth2/callback".
Definition staticDir : string := "/_slackproxy".

(** Modelled from the spec: [UpstreamConfiguration] is declared in another
    file of the repository.  The source reads [HostURL]; the access policy is
    the spec's opaque configuration for the AccessValidator. *)
Record UpstreamConfiguration : Type := mkUpstream {
  HostURL : url.URL;
  AccessPolicy : string
}.

(** Modelled from the spec: [Configuration] is declared in another file of
    the repository; these are the fields the source reads. *)
Record Configuration : Type := mkConfiguration {
  Upstreams : list UpstreamConfiguration;
  CookieHashKey : string;
  CookieBlockKey : string;
  CookieDomain : string
}.

(** [UpstreamConfigurationMap]: mount path to upstream.  A missing key reads
    as the [nil] pointer. *)
Abbreviation UpstreamConfigurationMap := (gmap string UpstreamConfiguration).

(** The data handed to a template: the two anonymous structs of
    [handleSignIn] and [ErrorPage]. *)
Inductive TemplateData : Type :=
| SignInData (Title Redirect : string)
| ErrorData (Title Message : string).

(** What the program takes from outside its own file: library functions and
    the outcome of calls that leave the process. *)
Record Env : Type := mkEnv {
  (** [base64.StdEncoding.DecodeString] *)
  base64_DecodeString : string -> result (list Byte.byte);
  (** [securecookie.New(hashKey, blockKey)] *)
  securecookie_New : list Byte.byte -> list Byte.byte -> securecookie.SecureCookie;
  (** [NewValidator()], defined in another file of the repository *)
  NewValidator : slack.Auth -> UpstreamConfiguration -> bool;
  (** [mux.Handler(req)]: the handler and the pattern the mux resolves *)
  mux_Handler : http.ServeMux -> http.Request -> http.Handler * string;
  (** [oauthTemplates.ExecuteTemplate(rw, name, data)]: its error *)
  ExecuteTemplate : string -> TemplateData -> error;
  (** [slack.NewClient(token).Auth.Test()] *)
  Auth_Test : string -> result slack.Auth;
  (** [u.RequestURI()] of [net/url] *)
  URL_RequestURI : url.URL -> string
}.

(** The calls a handler makes on the response writer and on its
    collaborators. *)
Inductive Event : Type :=
| rw_WriteHeader (code : Z)                            (* rw.WriteHeader(code) *)
| http_SetCookie (c : http.Cookie)                     (* http.SetCookie(rw, c) *)
| tmpl_ExecuteTemplate (name : string) (data : TemplateData)
| http_Error (msg : string) (code : Z)                 (* http.Error(rw, msg, code) *)
| http_Redirect (to : string) (code : Z)               (* http.Redirect(rw, req, to, code) *)
| http_NotFound                                        (* http.NotFound(rw, req) *)
| handler_ServeHTTP (h : http.Handler) (req : http.Request)
| oauth_RedeemCode (code : string)                     (* s.slackOauth.RedeemCode(code) *)
| slack_Auth_Test (token : string).                    (* cl.Auth.Test() *)

Record OAuthServer : Type := mkOAuthServer {
  CookieKey : string;
  Validator : slack.Auth -> UpstreamConfiguration -> bool;
  slackOauth : slack.OAuthClient;
  serveMux : http.ServeMux;
  staticHandler : http.Handler;
  secureCookie : securecookie.SecureCookie;
  upstreamsConfig : UpstreamConfigurationMap;
  config : Configuration
}.

(** *** Construction *)

(** How [NewOauthServer] ends: with a value, in [log.Fatalf] (the process
    exits with status 1), or in a panic. *)
Inductive Startup (A : Type) : Type :=
| Started (a : A)
| Fatal (msg : string)
| Panic (msg : string).
Arguments Started {A} a.
Arguments Fatal {A} msg.
Arguments Panic {A} msg.

#[global] Instance Startup_bind : MBind Startup := fun A B k m =>
  match m with
  | Started a => k a
  | Fatal msg => Fatal msg
  | Panic msg => Panic msg
  end.

(** [upstream.HostURL] is a pointer: [u.Path = ""] clears the path of the
    upstream's own URL. *)
Definition clear_path (upstream : UpstreamConfiguration) : UpstreamConfiguration :=
  {| HostURL := url.with_Path (HostURL upstream) ""; AccessPolicy := AccessPolicy upstream |}.

(** The body of the loop over [config.Upstreams]. *)
Definition mount (upstream : UpstreamConfiguration)
    (st : http.ServeMux * UpstreamConfigurationMap)
  : Startup (http.ServeMux * UpstreamConfigurationMap) :=
  let '(serveMux, upstreamsPathMap) := st in
  let path := url.Path (HostURL upstream) in
  let upstream := clear_path upstream in
  let u := HostURL upstream in
  let path := if String.eqb path "" then "/" else path in
  match http.Handle serveMux path (http.ReverseProxy u) with
  | Err msg => Panic msg
  | Ok serveMux => Started (serveMux, <[path := upstream]> upstreamsPathMap)
  end.

Fixpoint mount_all (upstreams : list UpstreamConfiguration)
    (st : http.ServeMux * UpstreamConfigurationMap)
  : Startup (http.ServeMux * UpstreamConfigurationMap) :=
  match upstreams with
  | [] => Started st
  | upstream :: rest => st' ← mount upstream st; mount_all rest st'
  end.

(** The closure [decode64] of [NewOauthServer]. *)
Definition decode64 (E : Env) (name s : string) : Startup (list Byte.byte) :=
  match base64_DecodeString E s with
  | Err err => Fatal ("Could not decode " ++ name ++ " key: " ++ err)
  | Ok bs => Started bs
  end.

Definition NewOauthServer (E : Env) (slackOauth : slack.OAuthClient) (config : Configuration)
  : Startup OAuthServer :=
  st ← mount_all (Upstreams config) (http.NewServeMux, ∅);
  let '(serveMux, upstreamsPathMap) := st in
  hashKey ← decode64 E "cookie_hash_key" (CookieHashKey config);
  blockKey ← decode64 E "cookie_block_key" (CookieBlockKey config);
  let secureCookie := securecookie_New E hashKey blockKey in
  Started {|
    CookieKey := "_slackauthproxy";
    Validator := NewValidator E;
    serveMux := serveMux;
    slackOauth := slackOauth;
    upstreamsConfig := upstreamsPathMap;
    secureCookie := secureCookie;
    staticHandler := http.FileServer "static";
    config := {| Upstreams := map clear_path (Upstreams config);
                 CookieHashKey := CookieHashKey config;
                 CookieBlockKey := CookieBlockKey config;
                 CookieDomain := CookieDomain config |}
  |}.

(** *** Handlers

    [now] is the instant [time.Now()] returns while the request is served;
    every path through [ServeHTTP] reads the clock at most once. *)

Definition getCookieDomain (s : OAuthServer) (req : http.Request) : string :=
  let domain := strings.Split0 (http.Host req) ":" in
  if negb (String.eqb (CookieDomain (config s)) "")
     && strings.HasSuffix domain (CookieDomain (config s))
  then CookieDomain (config s)
  else domain.

Definition SetCookie (s : OAuthServer) (now : time.Time) (req : http.Request) (val : string)
  : list Event :=
  let cookie := {|
    http.Name := CookieKey s;
    http.Value := val;
    http.Path := "/";
    http.Domain := getCookieDomain s req;
    http.Expires := time.Add now (168 * time.Hour);
    http.HttpOnly := true
  |} in
  [http_SetCookie cookie].

Definition ClearCookie (s : OAuthServer) (now : time.Time) (req : http.Request) : list Event :=
  let cookie := {|
    http.Name := CookieKey s;
    http.Value := "";
    http.Path := "/";
    http.Domain := getCookieDomain s req;
    http.Expires := time.Add now (1 * time.Hour * -1);
    http.HttpOnly := true
  |} in
  [http_SetCookie cookie].

Definition renderTemplate (E : Env) (tmpl : string) (data : TemplateData) : list Event :=
  tmpl_ExecuteTemplate (tmpl ++ ".html") data ::
  match ExecuteTemplate E (tmpl ++ ".html") data with
  | Some err => [http_Error err 500]
  | None => []
  end.

Definition ErrorPage (E : Env) (code : Z) (title message : string) : list Event :=
  let t := ErrorData (fmt.d code ++ " " ++ title) message in
  rw_WriteHeader code :: renderTemplate E "error" t.

Definition GetRedirect (req : http.Request) : string * error :=
  let '(_, err) := http.ParseForm req in
  match err with
  | Some _ => ("", err)
  | None =>
      let redirect := http.FormValue req "rd" in
      let redirect :=
        if String.eqb redirect "" || String.eqb redirect signInPath then "/" else redirect in
      (redirect, err)
  end.

Definition handleSignIn (E : Env) (s : OAuthServer) (now : time.Time) (req : http.Request)
  : list Event :=
  let t := SignInData "Sign in" (URL_RequestURI E (http.URL req)) in
  (ClearCookie s now req ++ renderTemplate E "sign_in" t)%list.

Definition handleOAuthStart (E : Env) (s : OAuthServer) (req : http.Request) : list Event :=
  match GetRedirect req with
  | (_, Some err) => ErrorPage E 500 "Internal Error" err
  | (redirect, None) => [http_Redirect (slack.LoginUrl (slackOauth s) redirect) 302]
  end.

Definition handleOAuthCallback (E : Env) (s : OAuthServer) (now : time.Time)
    (req : http.Request) : list Event :=
  let '(form, err) := http.ParseForm req in
  match err with
  | Some err => ErrorPage E 500 "Internal Error" err
  | None =>
      let errorString := url.Get form "error" in
      if negb (String.eqb errorString "") then
        ErrorPage E 403 "Permission Denied" errorString
      else
        oauth_RedeemCode (url.Get form "code") ::
        match slack.RedeemCode (slackOauth s) (url.Get form "code") with
        | Err err => ErrorPage E 500 "Internal Error" err
        | Ok access =>
            slack_Auth_Test (slack.AccessToken access) ::
            match Auth_Test E (slack.AccessToken access) with
            | Err err => ErrorPage E 500 "Internal Error" err
            | Ok auth =>
                let '(encoded, err) :=
                  securecookie.Encode (secureCookie s) (CookieKey s) auth in
                let on_err :=
                  match err with
                  | Some _ => ErrorPage E 500 "Internal Error" "Error encoding auth cookie"
                  | None => []
                  end in
                let redirect := url.Get form "state" in
                let redirect := if String.eqb redirect "" then "/" else redirect in
                (on_err ++ SetCookie s now req encoded ++ [http_Redirect redirect 302])%list
            end
        end
  end.

(** The two lookups of [ServeHTTP] in [s.upstreamsConfig]. *)
Definition lookup_upstream (s : OAuthServer) (pattern : string) : option UpstreamConfiguration :=
  let upstreamConfig := upstreamsConfig s !! pattern in
  match upstreamConfig with
  | None =>
      let pattern := strings.TrimPrefix pattern "/" in
      upstreamsConfig s !! pattern
  | Some _ => upstreamConfig
  end.

(** The two [if !ok] blocks of [ServeHTTP], entered with [ok] at its zero
    value: the result is the final [ok]. *)
Definition check_cookie (s : OAuthServer) (req : http.Request)
    (upstreamConfig : UpstreamConfiguration) : bool :=
  let ok := false in
  if negb ok then
    match http.Cookie_of req (CookieKey s) with
    | Some value =>
        let auth := slack.new_Auth in
        let '(auth, _) := securecookie.Decode (secureCookie s) (CookieKey s) value auth in
        Validator s auth upstreamConfig
    | None => ok
    end
  else ok.

Definition ServeHTTP (E : Env) (s : OAuthServer) (now : time.Time) (req : http.Request)
  : list Event :=
  let reqPath := url.Path (http.URL req) in
  if String.eqb reqPath signInPath then handleSignIn E s now req
  else if String.eqb reqPath oauthStartPath then handleOAuthStart E s req
  else if String.eqb reqPath oauthCallbackPath then handleOAuthCallback E s now req
  else if strings.HasPrefix reqPath staticDir then
    let req := http.with_URL req
                 (url.with_Path (http.URL req) (strings.Replace1 reqPath staticDir "")) in
    [handler_ServeHTTP (staticHandler s) req]
  else
    let '(handler, pattern) := mux_Handler E (serveMux s) req in
    match lookup_upstream s pattern with
    | None => [http_NotFound]
    | Some upstreamConfig =>
        let ok := check_cookie s req upstreamConfig in
        if negb ok then handleSignIn E s now req
        else [handler_ServeHTTP handler req]
    end.

(** ** A concrete environment

    One instance of [Env], of the provider and of the configuration, on
    which the statements below are evaluated. *)

Module Sample.

(** The value of a character of the standard base64 alphabet. *)
Definition b64_val (c : ascii) : option N :=
  let n := N_of_ascii c in
  if (65 <=? n)%N && (n <=? 90)%N then Some (n - 65)%N
  else if (97 <=? n)%N && (n <=? 122)%N then Some (n - 71)%N
  else if (48 <=? n)%N && (n <=? 57)%N then Some (n + 4)%N
  else if (n =? 43)%N then Some 62%N
  else if (n =? 47)%N then Some 63%N
  else None.

Definition byte_of (n : N) : Byte.byte := byte_of_ascii (ascii_of_N (n mod 256)).

Definition is_pad (c : ascii) : bool := Ascii.eqb c "=".

Definition illegal (at_byte : nat) : string :=
  "illegal base64 data at input byte " ++ fmt.d (Z.of_nat at_byte).

(** Padded base64 over groups of four characters; [i] is the offset of the
    group in the input. *)
Fixpoint b64_groups (cs : list ascii) (i : nat) : result (list Byte.byte) :=
  match cs with
  | [] => Ok []
  | c1 :: c2 :: c3 :: c4 :: rest =>
      match b64_val c1, b64_val c2 with
      | Some v1, Some v2 =>
          let b1 := byte_of (v1 * 4 + v2 / 16) in
          if is_pad c3 then
            if is_pad c4 then
              match rest with
              | [] => Ok [b1]
              | _ => Err (illegal (i + 4))
              end
            else Err (illegal (i + 3))
          else
            match b64_val c3 with
            | None => Err (illegal (i + 2))
            | Some v3 =>
                let b2 := byte_of (v2 * 16 + v3 / 4) in
                if is_pad c4 then
                  match rest with
                  | [] => Ok [b1; b2]
                  | _ => Err (illegal (i + 4))
                  end
                else
                  match b64_val c4 with
                  | None => Err (illegal (i + 3))
                  | Some v4 =>
                      let b3 := byte_of (v3 * 64 + v4) in
                      match b64_groups rest (i + 4) with
                      | Ok bs => Ok (b1 :: b2 :: b3 :: bs)
                      | Err e => Err e
                      end
                  end
            end
      | None, _ => Err (illegal i)
      | _, None => Err (illegal (i + 1))
      end
  | _ => Err (illegal (i + length cs))
  end.

Definition DecodeString (s : string) : result (list Byte.byte) :=
  b64_groups (list_ascii_of_string s) 0.

(** A cookie codec with the interface and the error state of the library's:
    a block key that is no AES key (16, 24 or 32 bytes) makes every call
    fail.  The value is the cookie name and the user name in clear. *)
Definition codec_err (blockKey : list Byte.byte) : error :=
  let n := length blockKey in
  if (n =? 16)%nat || (n =? 24)%nat || (n =? 32)%nat then None
  else Some ("crypto/aes: invalid key size " ++ fmt.d (Z.of_nat n)).

Definition with_Username (a : slack.Auth) (u : string) : slack.Auth :=
  {| slack.UserId := slack.UserId a; slack.Username := u; slack.TeamId := slack.TeamId a;
     slack.Token := slack.Token a; slack.IssuedAt := slack.IssuedAt a |}.

Definition New (hashKey blockKey : list Byte.byte) : securecookie.SecureCookie :=
  {| securecookie.Encode := fun name auth =>
       match codec_err blockKey with
       | Some e => ("", Some e)
       | None => (name ++ "|" ++ slack.Username auth, None)
       end;
     securecookie.Decode := fun name value dst =>
       match codec_err blockKey with
       | Some e => (dst, Some e)
       | None =>
           if strings.HasPrefix value (name ++ "|")
           then (with_Username dst (strings.drop (String.length name + 1) value), None)
           else (dst, Some "securecookie: the value is not valid")
       end |}.

(** The spec's default policy when the upstream has no restriction: every
    identity passes; otherwise the team must be the configured one. *)
Definition validator (auth : slack.Auth) (upstream : UpstreamConfiguration) : bool :=
  String.eqb (AccessPolicy upstream) ""
  || String.eqb (AccessPolicy upstream) (slack.TeamId auth).

Definition matches (pattern path : string) : bool :=
  String.eqb pattern path
  || (strings.HasSuffix pattern "/" && strings.HasPrefix path pattern).

(** The longest registered pattern that matches the path. *)
Fixpoint best (mux : http.ServeMux) (path : string) (acc : http.Handler * string)
  : http.Handler * string :=
  match mux with
  | [] => acc
  | (pattern, h) :: mux' =>
      if matches pattern path && (String.length (snd acc) <? String.length pattern)%nat
      then best mux' path (h, pattern)
      else best mux' path acc
  end.

Definition Handler_of (mux : http.ServeMux) (req : http.Request) : http.Handler * string :=
  best mux (url.Path (http.URL req)) (http.NotFoundHandler, "").

(** [u.RequestURI()] for URLs without raw path whose path needs no escaping,
    as the URLs of this module are: the opaque part when there is one, else
    the path, "/" when it is empty; then "?" and the raw query when there is
    one or the query is forced. *)
Definition RequestURI (u : url.URL) : string :=
  let result :=
    if String.eqb (url.Opaque u) "" then
      (if String.eqb (url.Path u) "" then "/" else url.Path u)
    else if strings.HasPrefix (url.Opaque u) "//" then url.Scheme u ++ ":" ++ url.Opaque u
    else url.Opaque u in
  if url.ForceQuery u || negb (String.eqb (url.RawQuery u) "")
  then result ++ "?" ++ url.RawQuery u
  else result.

Definition alice : slack.Auth :=
  {| slack.UserId := "U1"; slack.Username := "alice"; slack.TeamId := "T1";
     slack.Token := "xoxp-abc"; slack.IssuedAt := 0 |}.

Definition env : Env :=
  {| base64_DecodeString := DecodeString;
     securecookie_New := New;
     NewValidator := validator;
     mux_Handler := Handler_of;
     ExecuteTemplate := fun _ _ => None;
     Auth_Test := fun token =>
       if String.eqb token "" then Err "not_authed" else Ok alice;
     URL_RequestURI := RequestURI |}.

Definition provider : slack.OAuthClient :=
  {| slack.LoginUrl := fun redirect => "https://slack.com/oauth/authorize?state=" ++ redirect;
     slack.RedeemCode := fun code =>
       if String.eqb code "" then Err "invalid_code"
       else Ok {| slack.AccessToken := "xoxp-" ++ code |} |}.

Definition backend : UpstreamConfiguration :=
  {| HostURL := {| url.Scheme := "http"; url.Host := "10.0.0.5:8080"; url.Path := "";
                   url.RawQuery := ""; url.Opaque := ""; url.RawPath := "";
                   url.ForceQuery := false |};
     AccessPolicy := "" |}.

Definition team_backend : UpstreamConfiguration :=
  {| HostURL := {| url.Scheme := "http"; url.Host := "10.0.0.6:8080"; url.Path := "/wiki/";
                   url.RawQuery := ""; url.Opaque := ""; url.RawPath := "";
                   url.ForceQuery := false |};
     AccessPolicy := "T2" |}.

(** Two 16-byte keys. *)
Definition conf : Configuration :=
  {| Upstreams := [backend; team_backend];
     CookieHashKey := "MDEyMzQ1Njc4OWFiY2RlZg==";
     CookieBlockKey := "ZmVkY2JhOTg3NjU0MzIxMA==";
     CookieDomain := "example.com" |}.

(** The block key decodes to the six bytes of "secret". *)
Definition conf_short_key : Configuration :=
  {| Upstreams := [backend];
     CookieHashKey := "MDEyMzQ1Njc4OWFiY2RlZg==";
     CookieBlockKey := "c2VjcmV0";
     CookieDomain := "" |}.

Definition conf_bad_key : Configuration :=
  {| Upstreams := [backend];
     CookieHashKey := "MDEyMzQ1Njc4OWFiY2RlZg==";
     CookieBlockKey := "not base64!";
     CookieDomain := "" |}.

(** Only the wiki is mounted. *)
Definition conf_wiki_only : Configuration :=
  {| Upstreams := [team_backend];
     CookieHashKey := "MDEyMzQ1Njc4OWFiY2RlZg==";
     CookieBlockKey := "ZmVkY2JhOTg3NjU0MzIxMA==";
     CookieDomain := "" |}.

(** The server [NewOauthServer] builds, or the server of an empty
    configuration when construction does not return. *)
Definition server_of (c : Configuration) : OAuthServer :=
  match NewOauthServer env provider c with
  | Started s => s
  | _ =>
      {| CookieKey := ""; Validator := fun _ _ => false; slackOauth := provider;
         serveMux := []; staticHandler := http.NotFoundHandler;
         secureCookie := New [] []; upstreamsConfig := ∅; config := c |}
  end.

Definition get (host path query : string) (cookies : list (string * string))
    (form : list (string * list string)) : http.Request :=
  {| http.Method := "GET";
     http.URL := {| url.Scheme := ""; url.Host := ""; url.Path := path; url.RawQuery := query;
                   url.Opaque := ""; url.RawPath := ""; url.ForceQuery := false |};
     http.Host := host;
     http.Cookies := cookies;
     http.Form := list_to_map form;
     http.FormErr := None |}.

Definition with_FormErr (r : http.Request) (e : error) : http.Request :=
  {| http.Method := http.Method r; http.URL := http.URL r; http.Host := http.Host r;
     http.Cookies := http.Cookies r; http.Form := http.Form r; http.FormErr := e |}.

(** GET /foo with a cookie that is no encoded session. *)
Definition garbage_req : http.Request :=
  get "app.example.com:8080" "/foo" "" [("_slackauthproxy", "garbage")] [].

(** GET /wiki/a with the session of a user outside team T2. *)
Definition outsider_req : http.Request :=
  get "app.example.com:8080" "/wiki/a" "x=1" [("_slackauthproxy", "_slackauthproxy|bob")] [].

Definition unmapped_req : http.Request :=
  get "app.example.com" "/unmapped/path" "" [("_slackauthproxy", "_slackauthproxy|bob")] [].

Definition sign_in_req : http.Request :=
  get "app.example.com" "/oauth2/sign_in" "rd=/dashboard" [] [("rd", ["/dashboard"])].

Definition start_req (rd : string) : http.Request :=
  get "app.example.com" "/oauth2/start" ("rd=" ++ rd) [] [("rd", [rd])].

Definition callback_req (state : string) : http.Request :=
  get "app.example.org:8080" "/oauth2/callback" ("code=abc&state=" ++ state) []
    [("code", ["abc"]); ("state", [state])].

Definition denied_req : http.Request :=
  get "app.example.com" "/oauth2/callback" "error=access_denied" []
    [("error", ["access_denied"])].

(** GET /oauth2/callback?error=access_denied&x=%zz: the second pair does not
    unescape, the first one is kept. *)
Definition denied_malformed_req : http.Request :=
  with_FormErr
    (get "app.example.com" "/oauth2/callback" "error=access_denied&x=%zz" []
       [("error", ["access_denied"])])
    (Some "invalid URL escape %zz").

Definition access_abc : slack.Access := {| slack.AccessToken := "xoxp-abc" |}.

Definition root_proxy : http.Handler := http.ReverseProxy (HostURL (clear_path backend)).

(** The empty path and ["/"] are the same mount. *)
Definition root_again : UpstreamConfiguration :=
  {| HostURL := {| url.Scheme := "http"; url.Host := "10.0.0.7:8080"; url.Path := "/";
                   url.RawQuery := ""; url.Opaque := ""; url.RawPath := "";
                   url.ForceQuery := false |};
     AccessPolicy := "" |}.

Definition conf_twice_root : Configuration :=
  {| Upstreams := [backend; team_backend; root_again];
     CookieHashKey := "MDEyMzQ1Njc4OWFiY2RlZg==";
     CookieBlockKey := "ZmVkY2JhOTg3NjU0MzIxMA==";
     CookieDomain := "" |}.

Definition static_req : http.Request :=
  get "app.example.com" "/_slackproxy/css/site.css" "" [] [].

Definition anonymous_req : http.Request :=
  get "app.example.com:8080" "/foo" "x=1" [] [].

Definition member_req : http.Request :=
  get "app.example.com:8080" "/foo" "" [("_slackauthproxy", "_slackauthproxy|alice")] [].

Definition no_code_req : http.Request :=
  get "app.example.com" "/oauth2/callback" "state=/dashboard" [] [("state", ["/dashboard"])].

(** An identity with the user name alone, which the sample codec carries
    whole, and the environment whose provider reports it. *)
Definition alice_min : slack.Auth := with_Username slack.new_Auth "alice".

Definition env_min : Env :=
  {| base64_DecodeString := DecodeString;
     securecookie_New := New;
     NewValidator := validator;
     mux_Handler := Handler_of;
     ExecuteTemplate := fun _ _ => None;
     Auth_Test := fun token =>
       if String.eqb token "" then Err "not_authed" else Ok alice_min;
     URL_RequestURI := RequestURI |}.


(** The environment whose identity endpoint is down. *)
Definition env_down : Env :=
  {| base64_DecodeString := DecodeString;
     securecookie_New := New;
     NewValidator := validator;
     mux_Handler := Handler_of;
     ExecuteTemplate := fun _ _ => None;
     Auth_Test := fun _ => Err "account_inactive";
     URL_RequestURI := RequestURI |}.

Definition sign_in_again_req : http.Request :=
  get "app.example.org:8080" "/oauth2/sign_in" "" [] [].

(** GET /oauth2/callback?error=&error=access_denied&code=abc: the first
    value of [error] is empty, the second is not. *)
Definition second_error_req : http.Request :=
  get "app.example.com" "/oauth2/callback" "error=&error=access_denied&code=abc" []
    [("error", [""; "access_denied"]); ("code", ["abc"])].

(** A callback for a host that is an IPv6 literal with a port. *)
Definition ipv6_callback_req : http.Request :=
  get "[::1]:8080" "/oauth2/callback" "code=abc" [] [("code", ["abc"])].

End Sample.

(** ** Properties of the gate *)

(** The control paths [ServeHTTP] answers itself, before any routing. *)
Definition special_path (p : string) : bool :=
  String.eqb p signInPath || String.eqb p oauthStartPath
  || String.eqb p oauthCallbackPath || strings.HasPrefix p staticDir.

Definition is_forward (e : Event) : bool :=
  match e with handler_ServeHTTP _ _ => true | _ => false end.

Definition is_set_cookie (e : Event) : bool :=
  match e with http_SetCookie _ => true | _ => false end.

Definition is_redirect (e : Event) : bool :=
  match e with http_Redirect _ _ => true | _ => false end.

Definition is_provider_call (e : Event) : bool :=
  match e with oauth_RedeemCode _ | slack_Auth_Test _ => true | _ => false end.

(** A path of this origin: it starts with one slash, and not with two (a
    scheme-relative reference to another host). *)
Definition same_origin_path (t : string) : bool :=
  match t with
  | String "/" rest => negb (String.prefix "/" rest)
  | _ => false
  end.

(** [pattern] without its leading slash, when it has one. *)
Definition strip_leading_slash (pattern : string) : string :=
  match pattern with
  | String "/" rest => rest
  | _ => pattern
  end.

(** [d] is [host] without its port: [d] has no colon, and [host] is [d],
    possibly followed by a colon and more. *)
Definition port_stripped (host d : string) : Prop :=
  strings.ContainsByte d ":" = false /\ (host = d \/ exists rest, host = d ++ ":" ++ rest).

(** The OAuth callback runs to its end: the form parses, the provider sent
    no error, the code is redeemed and the identity is fetched. *)
Definition callback_authenticates (E : Env) (s : OAuthServer) (req : http.Request)
    (access : slack.Access) (auth : slack.Auth) : Prop :=
  http.FormErr req = None
  /\ url.Get (http.Form req) "error" = ""
  /\ slack.RedeemCode (slackOauth s) (url.Get (http.Form req) "code") = Ok access
  /\ Auth_Test E (slack.AccessToken access) = Ok auth.

(** The pattern an upstream is mounted under: the path of its URL, ["/"]
    when that path is empty. *)
Definition mount_path (upstream : UpstreamConfiguration) : string :=
  let path := url.Path (HostURL upstream) in
  if String.eqb path "" then "/" else path.

(** What the loop of [NewOauthServer] registers in the mux for an upstream. *)
Definition mount_entry (upstream : UpstreamConfiguration) : string * http.Handler :=
  (mount_path upstream, http.ReverseProxy (HostURL (clear_path upstream))).

(** What the loop stores in the table for an upstream. *)
Definition mount_insert (tbl : UpstreamConfigurationMap) (upstream : UpstreamConfiguration)
  : UpstreamConfigurationMap :=
  <[mount_path upstream := clear_path upstream]> tbl.

Definition is_status (e : Event) : bool :=
  match e with rw_WriteHeader _ => true | _ => false end.

Definition is_not_found (e : Event) : bool :=
  match e with http_NotFound => true | _ => false end.

(** *** Strings *)

Lemma app_cons (c : ascii) (a b : string) : String c a ++ b = String c (a ++ b).
Proof. reflexivity. Qed.

Lemma drop_app (a b : string) : strings.drop (String.length a) (a ++ b) = b.
Proof. induction a as [|c a IH]; simpl; auto. Qed.

Lemma prefix_app (a b : string) : String.prefix a (a ++ b) = true.
Proof.
  induction a as [|c a IH]; simpl.
  - destruct b; reflexivity.
  - destruct (ascii_dec c c) as [_|n]; [exact IH | contradiction].
Qed.

Lemma prefix_split (a s : string) :
  String.prefix a s = true -> s = a ++ strings.drop (String.length a) s.
Proof.
  revert s; induction a as [|c a IH]; intros s H; simpl.
  - reflexivity.
  - destruct s as [|d s]; simpl in H; [discriminate|].
    destruct (ascii_dec c d) as [->|_]; [|discriminate].
    rewrite app_cons. f_equal. apply IH, H.
Qed.

Lemma TrimPrefix_slash (pattern : string) :
  strings.TrimPrefix pattern "/" = strip_leading_slash pattern.
Proof.
  unfold strings.TrimPrefix, strings.HasPrefix.
  destruct pattern as [|c rest]; simpl; [reflexivity|].
  destruct (ascii_dec "/" c) as [<-|n].
  - destruct rest; reflexivity.
  - destruct c as [[] [] [] [] [] [] [] []]; try reflexivity. contradiction n; reflexivity.
Qed.

Lemma length_drop (n : nat) (s : string) :
  String.length (strings.drop n s) = (String.length s - n)%nat.
Proof.
  revert s; induction n as [|n IH]; intros [|c s]; simpl; auto.
Qed.

Lemma drop_split (n : nat) (s : string) :
  (n <= String.length s)%nat ->
  exists pre, s = pre ++ strings.drop n s /\ String.length pre = n.
Proof.
  revert s; induction n as [|n IH]; intros s Hn.
  - exists "". split; reflexivity.
  - destruct s as [|c s]; simpl in Hn; [lia|].
    destruct (IH s) as [pre [Hs Hl]]; [lia|].
    exists (String c pre). rewrite app_cons. simpl. split; [f_equal; exact Hs | f_equal; exact Hl].
Qed.

Lemma length_app (a b : string) :
  String.length (a ++ b) = (String.length a + String.length b)%nat.
Proof. induction a as [|c a IH]; [reflexivity|]. rewrite app_cons. simpl. auto. Qed.

(** [strings.HasSuffix] decides "ends with". *)
Lemma HasSuffix_spec (s suf : string) :
  strings.HasSuffix s suf = true <-> exists pre, s = pre ++ suf.
Proof.
  unfold strings.HasSuffix. rewrite andb_true_iff, Nat.leb_le, String.eqb_eq. split.
  - intros [Hle Heq].
    destruct (drop_split (String.length s - String.length suf) s) as [pre [Hs _]]; [lia|].
    exists pre. rewrite Heq in Hs. exact Hs.
  - intros [pre ->]. rewrite length_app. split; [lia|].
    replace (String.length pre + String.length suf - String.length suf)%nat
      with (String.length pre) by lia.
    apply drop_app.
Qed.

(** The first piece of a split holds no separator and is followed, in the
    input, by nothing or by the separator. *)
Lemma Split0_spec (host : string) : port_stripped host (strings.Split0 host ":").
Proof.
  unfold port_stripped, strings.Split0.
  induction host as [|c host [IHc IHs]]; simpl.
  - split; [reflexivity | left; reflexivity].
  - destruct (Ascii.eqb c ":") eqn:Hc.
    + apply Ascii.eqb_eq in Hc as ->. split; [reflexivity|].
      right. exists host. reflexivity.
    + destruct (strings.Split host ":") as [|p ps]; simpl.
      * rewrite Hc. split; [reflexivity|].
        destruct IHs as [->|[rest ->]]; [left; reflexivity | right; exists rest; reflexivity].
      * rewrite Hc. simpl. split; [exact IHc|].
        destruct IHs as [->|[rest ->]]; [left; reflexivity | right; exists rest; reflexivity].
Qed.

(** *** Dispatch *)

Lemma special_path_false (p : string) :
  special_path p = false ->
  String.eqb p signInPath = false /\ String.eqb p oauthStartPath = false
  /\ String.eqb p oauthCallbackPath = false /\ strings.HasPrefix p staticDir = false.
Proof.
  unfold special_path. rewrite !orb_false_iff. tauto.
Qed.

Lemma ServeHTTP_sign_in (E : Env) (s : OAuthServer) (now : time.Time) (req : http.Request) :
  url.Path (http.URL req) = signInPath ->
  ServeHTTP E s now req = handleSignIn E s now req.
Proof. intros H. unfold ServeHTTP. rewrite H. reflexivity. Qed.

Lemma ServeHTTP_start (E : Env) (s : OAuthServer) (now : time.Time) (req : http.Request) :
  url.Path (http.URL req) = oauthStartPath ->
  ServeHTTP E s now req = handleOAuthStart E s req.
Proof. intros H. unfold ServeHTTP. rewrite H. reflexivity. Qed.

Lemma ServeHTTP_callback (E : Env) (s : OAuthServer) (now : time.Time) (req : http.Request) :
  url.Path (http.URL req) = oauthCallbackPath ->
  ServeHTTP E s now req = handleOAuthCallback E s now req.
Proof. intros H. unfold ServeHTTP. rewrite H. reflexivity. Qed.

(** Past the control paths, the request is answered from the mux's pattern
    and the cookie alone. *)
Lemma ServeHTTP_routed (E : Env) (s : OAuthServer) (now : time.Time) (req : http.Request)
    (handler : http.Handler) (pattern : string) :
  special_path (url.Path (http.URL req)) = false ->
  mux_Handler E (serveMux s) req = (handler, pattern) ->
  ServeHTTP E s now req =
    match lookup_upstream s pattern with
    | None => [http_NotFound]
    | Some upstreamConfig =>
        if check_cookie s req upstreamConfig then [handler_ServeHTTP handler req]
        else handleSignIn E s now req
    end.
Proof.
  intros Hp Hm. apply special_path_false in Hp as (H1 & H2 & H3 & H4).
  unfold ServeHTTP. rewrite H1, H2, H3, H4, Hm.
  destruct (lookup_upstream s pattern) as [u|]; [|reflexivity].
  destruct (check_cookie s req u); reflexivity.
Qed.

Lemma lookup_upstream_eq (s : OAuthServer) (pattern : string) :
  lookup_upstream s pattern =
    match upstreamsConfig s !! pattern with
    | Some u => Some u
    | None => upstreamsConfig s !! strip_leading_slash pattern
    end.
Proof.
  unfold lookup_upstream. rewrite TrimPrefix_slash.
  destruct (upstreamsConfig s !! pattern); reflexivity.
Qed.

Lemma check_cookie_present (s : OAuthServer) (req : http.Request)
    (upstream : UpstreamConfiguration) (value : string) (auth : slack.Auth) (err : error) :
  http.Cookie_of req (CookieKey s) = Some value ->
  securecookie.Decode (secureCookie s) (CookieKey s) value slack.new_Auth = (auth, err) ->
  check_cookie s req upstream = Validator s auth upstream.
Proof. intros Hc Hd. unfold check_cookie. simpl. rewrite Hc, Hd. reflexivity. Qed.

Lemma check_cookie_absent (s : OAuthServer) (req : http.Request)
    (upstream : UpstreamConfiguration) :
  http.Cookie_of req (CookieKey s) = None -> check_cookie s req upstream = false.
Proof. intros Hc. unfold check_cookie. simpl. rewrite Hc. reflexivity. Qed.

(** The sign-in response: the clearing cookie, the template, and the plain
    error of [renderTemplate] when the template fails. *)
Lemma handleSignIn_shape (E : Env) (s : OAuthServer) (now : time.Time) (req : http.Request) :
  exists tail,
    handleSignIn E s now req =
      ([http_SetCookie {| http.Name := CookieKey s; http.Value := ""; http.Path := "/";
                         http.Domain := getCookieDomain s req;
                         http.Expires := now - time.Hour; http.HttpOnly := true |};
       tmpl_ExecuteTemplate "sign_in.html"
         (SignInData "Sign in" (URL_RequestURI E (http.URL req)))] ++ tail)%list
    /\ (tail = [] \/ exists msg, tail = [http_Error msg 500]).
Proof.
  unfold handleSignIn, ClearCookie, renderTemplate, time.Add.
  replace (now + 1 * time.Hour * -1) with (now - time.Hour) by lia.
  change ("sign_in" ++ ".html") with "sign_in.html".
  destruct (ExecuteTemplate E "sign_in.html" _) as [msg|].
  - exists [http_Error msg 500]. split; [reflexivity | right; eauto].
  - exists []. split; [reflexivity | left; reflexivity].
Qed.

Lemma handleSignIn_no_forward (E : Env) (s : OAuthServer) (now : time.Time)
    (req : http.Request) :
  existsb is_forward (handleSignIn E s now req) = false.
Proof.
  destruct (handleSignIn_shape E s now req) as (tail & -> & [->|[msg ->]]); reflexivity.
Qed.

(** The error page: the status, the template, and the plain error of
    [renderTemplate] when the template fails. *)
Lemma ErrorPage_shape (E : Env) (code : Z) (title message : string) :
  exists tail,
    ErrorPage E code title message =
      (rw_WriteHeader code ::
       tmpl_ExecuteTemplate "error.html" (ErrorData (fmt.d code ++ " " ++ title) message) ::
       tail)
    /\ (tail = [] \/ exists msg, tail = [http_Error msg 500]).
Proof.
  unfold ErrorPage, renderTemplate.
  change ("error" ++ ".html") with "error.html".
  destruct (ExecuteTemplate E "error.html" _) as [msg|].
  - exists [http_Error msg 500]. split; [reflexivity | right; eauto].
  - exists []. split; [reflexivity | left; reflexivity].
Qed.

Lemma ErrorPage_quiet (E : Env) (code : Z) (title message : string) :
  existsb is_set_cookie (ErrorPage E code title message) = false
  /\ existsb is_redirect (ErrorPage E code title message) = false
  /\ existsb is_provider_call (ErrorPage E code title message) = false
  /\ existsb is_forward (ErrorPage E code title message) = false.
Proof.
  destruct (ErrorPage_shape E code title message) as (tail & -> & [->|[msg ->]]);
    repeat split; reflexivity.
Qed.

(** The callback once the provider has answered: what is left depends on
    [Encode] only. *)
Lemma callback_after_provider (E : Env) (s : OAuthServer) (now : time.Time)
    (req : http.Request) (access : slack.Access) (auth : slack.Auth) :
  callback_authenticates E s req access auth ->
  handleOAuthCallback E s now req =
    oauth_RedeemCode (url.Get (http.Form req) "code") ::
    slack_Auth_Test (slack.AccessToken access) ::
    (let '(encoded, err) := securecookie.Encode (secureCookie s) (CookieKey s) auth in
     let state := url.Get (http.Form req) "state" in
     match err with
     | Some _ => ErrorPage E 500 "Internal Error" "Error encoding auth cookie"
     | None => []
     end ++ SetCookie s now req encoded
         ++ [http_Redirect (if String.eqb state "" then "/" else state) 302])%list.
Proof.
  intros (Hf & He & Hr & Ha).
  unfold handleOAuthCallback, http.ParseForm. rewrite Hf, He, Hr, Ha. simpl.
  destruct (securecookie.Encode _ _ _) as [encoded err]. reflexivity.
Qed.

(** *** The gate *)

(** C1 (the code departs from the claim).  A gated request whose cookie fails
    to decode is not handled like a request without cookie: the error of
    [Decode] is dropped, the record [Decode] left behind is handed to the
    validator, and when the validator accepts it the request is forwarded to
    the upstream. *)
Theorem failed_decode_is_forwarded (E : Env) (s : OAuthServer) (now : time.Time)
    (req : http.Request) (handler : http.Handler) (pattern : string)
    (upstream : UpstreamConfiguration) (value : string) (auth : slack.Auth) (msg : string) :
  special_path (url.Path (http.URL req)) = false ->
  mux_Handler E (serveMux s) req = (handler, pattern) ->
  lookup_upstream s pattern = Some upstream ->
  http.Cookie_of req (CookieKey s) = Some value ->
  securecookie.Decode (secureCookie s) (CookieKey s) value slack.new_Auth = (auth, Some msg) ->
  Validator s auth upstream = true ->
  ServeHTTP E s now req = [handler_ServeHTTP handler req]
  /\ ServeHTTP E s now req <> handleSignIn E s now req.
Proof.
  intros Hp Hm Hl Hc Hd Hv.
  rewrite (ServeHTTP_routed E s now req handler pattern Hp Hm), Hl.
  rewrite (check_cookie_present s req upstream value auth (Some msg) Hc Hd), Hv.
  split; [reflexivity|].
  destruct (handleSignIn_shape E s now req) as (tail & -> & _). discriminate.
Qed.

(** C5.  A gated request whose cookie decodes to an identity the upstream's
    validator rejects gets the sign-in response, with the sign-in template
    rendered, and is not forwarded. *)
Theorem rejected_identity_gets_sign_in (E : Env) (s : OAuthServer) (now : time.Time)
    (req : http.Request) (handler : http.Handler) (pattern : string)
    (upstream : UpstreamConfiguration) (value : string) (auth : slack.Auth) :
  special_path (url.Path (http.URL req)) = false ->
  mux_Handler E (serveMux s) req = (handler, pattern) ->
  lookup_upstream s pattern = Some upstream ->
  http.Cookie_of req (CookieKey s) = Some value ->
  securecookie.Decode (secureCookie s) (CookieKey s) value slack.new_Auth = (auth, None) ->
  Validator s auth upstream = false ->
  ServeHTTP E s now req = handleSignIn E s now req
  /\ In (tmpl_ExecuteTemplate "sign_in.html"
           (SignInData "Sign in" (URL_RequestURI E (http.URL req))))
        (ServeHTTP E s now req)
  /\ existsb is_forward (ServeHTTP E s now req) = false.
Proof.
  intros Hp Hm Hl Hc Hd Hv.
  rewrite (ServeHTTP_routed E s now req handler pattern Hp Hm), Hl.
  rewrite (check_cookie_present s req upstream value auth None Hc Hd), Hv.
  split; [reflexivity|]. split; [|apply handleSignIn_no_forward].
  destruct (handleSignIn_shape E s now req) as (tail & -> & _).
  simpl. right. left. reflexivity.
Qed.

(** C7.  Past the control paths, the upstream is looked up under the pattern
    the mux resolves, and on a miss under that pattern without its leading
    slash; the upstream found gates the request, and when both lookups miss
    the answer is [http.NotFound], whatever cookies the request carries. *)
Theorem unresolved_path_is_404 (E : Env) (s : OAuthServer) (now : time.Time)
    (req : http.Request) (handler : http.Handler) (pattern : string) :
  special_path (url.Path (http.URL req)) = false ->
  mux_Handler E (serveMux s) req = (handler, pattern) ->
  let gate upstream :=
    if check_cookie s req upstream then [handler_ServeHTTP handler req]
    else handleSignIn E s now req in
  (forall upstream, upstreamsConfig s !! pattern = Some upstream ->
     ServeHTTP E s now req = gate upstream)
  /\ (forall upstream, upstreamsConfig s !! pattern = None ->
        upstreamsConfig s !! strip_leading_slash pattern = Some upstream ->
        ServeHTTP E s now req = gate upstream)
  /\ (upstreamsConfig s !! pattern = None ->
      upstreamsConfig s !! strip_leading_slash pattern = None ->
      ServeHTTP E s now req = [http_NotFound]).
Proof.
  intros Hp Hm gate. subst gate.
  rewrite (ServeHTTP_routed E s now req handler pattern Hp Hm), lookup_upstream_eq.
  repeat split.
  - intros u ->. reflexivity.
  - intros u -> ->. reflexivity.
  - intros -> ->. reflexivity.
Qed.

(** C8.  A request for the sign-in path first gets the cookie that replaces
    the session cookie: the session's name, an empty value, path "/", the
    cookie domain of the request host, HttpOnly, and an expiry one hour
    before the request is served; any session cookie [SetCookie] issues for
    the same host has that name, path and domain.  Then the sign-in template
    is executed with the request URI of the request as its redirect
    target. *)
Theorem sign_in_clears_then_renders (E : Env) (s : OAuthServer) (now : time.Time)
    (req : http.Request) :
  url.Path (http.URL req) = signInPath ->
  let cleared := {| http.Name := CookieKey s; http.Value := ""; http.Path := "/";
                    http.Domain := getCookieDomain s req;
                    http.Expires := now - time.Hour; http.HttpOnly := true |} in
  (exists tail,
     ServeHTTP E s now req =
       http_SetCookie cleared ::
       tmpl_ExecuteTemplate "sign_in.html"
         (SignInData "Sign in" (URL_RequestURI E (http.URL req))) :: tail
     /\ (tail = [] \/ exists msg, tail = [http_Error msg 500]))
  /\ time.Before (http.Expires cleared) now
  /\ (forall issued_at req' val,
        http.Host req' = http.Host req ->
        exists issued,
          SetCookie s issued_at req' val = [http_SetCookie issued]
          /\ http.Value issued = val
          /\ http.Name issued = http.Name cleared
          /\ http.Path issued = http.Path cleared
          /\ http.Domain issued = http.Domain cleared).
Proof.
  intros Hp cleared. subst cleared. rewrite (ServeHTTP_sign_in E s now req Hp).
  split; [|split].
  - destruct (handleSignIn_shape E s now req) as (tail & -> & Ht).
    exists tail. split; [reflexivity | exact Ht].
  - cbn. unfold time.Before, time.Hour, time.Minute, time.Second, time.Nanosecond. lia.
  - intros issued_at req' val Hh. eexists. split; [reflexivity|]. cbn.
    repeat split. unfold getCookieDomain. rewrite Hh. reflexivity.
Qed.

(** *** The OAuth callback *)

(** C3 (the code departs from the claim).  When [Encode] fails in the
    callback, the handler renders the 500 page and then, the branch having no
    [return], goes on as on success: it sets the session cookie, with the
    string [Encode] returned, and redirects to the state target. *)
Theorem encode_failure_falls_through (E : Env) (s : OAuthServer) (now : time.Time)
    (req : http.Request) (access : slack.Access) (auth : slack.Auth)
    (encoded msg : string) :
  url.Path (http.URL req) = oauthCallbackPath ->
  callback_authenticates E s req access auth ->
  securecookie.Encode (secureCookie s) (CookieKey s) auth = (encoded, Some msg) ->
  let state := url.Get (http.Form req) "state" in
  ServeHTTP E s now req =
    (oauth_RedeemCode (url.Get (http.Form req) "code") ::
     slack_Auth_Test (slack.AccessToken access) ::
     ErrorPage E 500 "Internal Error" "Error encoding auth cookie"
     ++ SetCookie s now req encoded
     ++ [http_Redirect (if String.eqb state "" then "/" else state) 302])%list
  /\ existsb is_set_cookie (ServeHTTP E s now req) = true
  /\ existsb is_redirect (ServeHTTP E s now req) = true.
Proof.
  intros Hp Ha He state. subst state.
  rewrite (ServeHTTP_callback E s now req Hp).
  rewrite (callback_after_provider E s now req access auth Ha), He.
  split; [reflexivity|].
  cbn [existsb is_set_cookie is_redirect orb].
  rewrite !existsb_app. unfold SetCookie. cbn [existsb is_set_cookie is_redirect].
  rewrite !orb_true_r. split; reflexivity.
Qed.

(** C6, as the code has it.  A callback whose first [error] value, the one
    [req.Form.Get] returns, is not empty never reaches the provider and sets
    no cookie.  When its form parsed without error it is answered with status
    403 and the error template, titled "403 Permission Denied", showing that
    value; when its form did not parse it is answered with status 500 and the
    error template, titled "500 Internal Error", showing the parse error. *)
Theorem provider_error_is_denied (E : Env) (s : OAuthServer) (now : time.Time)
    (req : http.Request) :
  url.Path (http.URL req) = oauthCallbackPath ->
  url.Get (http.Form req) "error" <> "" ->
  (http.FormErr req = None ->
   exists tail,
     ServeHTTP E s now req =
       rw_WriteHeader 403 ::
       tmpl_ExecuteTemplate "error.html"
         (ErrorData "403 Permission Denied" (url.Get (http.Form req) "error")) :: tail
     /\ (tail = [] \/ exists msg, tail = [http_Error msg 500]))
  /\ (forall e, http.FormErr req = Some e ->
      exists tail,
        ServeHTTP E s now req =
          rw_WriteHeader 500 ::
          tmpl_ExecuteTemplate "error.html" (ErrorData "500 Internal Error" e) :: tail
        /\ (tail = [] \/ exists msg, tail = [http_Error msg 500]))
  /\ existsb is_provider_call (ServeHTTP E s now req) = false
  /\ existsb is_set_cookie (ServeHTTP E s now req) = false.
Proof.
  intros Hp He. rewrite (ServeHTTP_callback E s now req Hp).
  apply String.eqb_neq in He.
  unfold handleOAuthCallback, http.ParseForm.
  destruct (http.FormErr req) as [err|].
  - split; [discriminate|].
    destruct (ErrorPage_quiet E 500 "Internal Error" err) as (H1 & _ & H3 & _).
    split; [|auto]. intros e [= <-].
    destruct (ErrorPage_shape E 500 "Internal Error" err) as (tail & -> & Ht).
    exists tail. split; [reflexivity | exact Ht].
  - rewrite He. cbn [negb].
    destruct (ErrorPage_quiet E 403 "Permission Denied" (url.Get (http.Form req) "error"))
      as (H1 & _ & H3 & _).
    split; [|split; [discriminate | auto]]. intros _.
    destruct (ErrorPage_shape E 403 "Permission Denied" (url.Get (http.Form req) "error"))
      as (tail & -> & Ht).
    exists tail. split; [reflexivity | exact Ht].
Qed.

(** C6, as the claim has it, fails twice.  A callback with
    [error=access_denied] whose form does not parse is answered 500, not 403.
    A callback whose query holds a non-empty [error] after an empty one is
    not denied at all: the code is redeemed, the session cookie is set and
    the request is redirected. *)
Lemma provider_error_with_bad_form_is_500 :
  (url.Path (http.URL Sample.denied_malformed_req) = oauthCallbackPath
   /\ url.Get (http.Form Sample.denied_malformed_req) "error" = "access_denied"
   /\ ServeHTTP Sample.env (Sample.server_of Sample.conf) 1000 Sample.denied_malformed_req =
        [rw_WriteHeader 500;
         tmpl_ExecuteTemplate "error.html"
           (ErrorData "500 Internal Error" "invalid URL escape %zz")])
  /\ (url.Path (http.URL Sample.second_error_req) = oauthCallbackPath
      /\ http.FormErr Sample.second_error_req = None
      /\ http.Form Sample.second_error_req !! "error" = Some [""; "access_denied"]
      /\ ServeHTTP Sample.env (Sample.server_of Sample.conf) 1000 Sample.second_error_req =
           [oauth_RedeemCode "abc"; slack_Auth_Test "xoxp-abc";
            http_SetCookie {| http.Name := "_slackauthproxy";
                              http.Value := "_slackauthproxy|alice"; http.Path := "/";
                              http.Domain := "example.com";
                              http.Expires := 604800000001000; http.HttpOnly := true |};
            http_Redirect "/" 302]).
Proof. repeat split; vm_compute; reflexivity. Qed.

(** The callback on success: the provider calls, the session cookie, the
    redirect to the state target. *)
Lemma callback_success (E : Env) (s : OAuthServer) (now : time.Time) (req : http.Request)
    (access : slack.Access) (auth : slack.Auth) (encoded : string) :
  callback_authenticates E s req access auth ->
  securecookie.Encode (secureCookie s) (CookieKey s) auth = (encoded, None) ->
  handleOAuthCallback E s now req =
    [oauth_RedeemCode (url.Get (http.Form req) "code");
     slack_Auth_Test (slack.AccessToken access);
     http_SetCookie {| http.Name := CookieKey s; http.Value := encoded; http.Path := "/";
                       http.Domain := getCookieDomain s req;
                       http.Expires := now + 168 * time.Hour; http.HttpOnly := true |};
     http_Redirect (if String.eqb (url.Get (http.Form req) "state") "" then "/"
                    else url.Get (http.Form req) "state") 302].
Proof.
  intros Ha He. rewrite (callback_after_provider E s now req access auth Ha), He.
  reflexivity.
Qed.

Lemma GetRedirect_parsed (req : http.Request) :
  http.FormErr req = None ->
  GetRedirect req =
    (if String.eqb (http.FormValue req "rd") ""
        || String.eqb (http.FormValue req "rd") signInPath
     then "/" else http.FormValue req "rd", None).
Proof. intros Hf. unfold GetRedirect, http.ParseForm. rewrite Hf. reflexivity. Qed.

(** C2, as the code has it.  The redirect target is the caller's value: the
    [rd] form value in [GetRedirect], used as it is unless it is empty or the
    sign-in path, when the target is "/"; and the [state] value in the
    callback, used as it is unless it is empty, when the target is "/".  The
    target is a same-origin path exactly when the value supplied is empty or
    is one. *)
Theorem redirect_target_is_callers_value (E : Env) (s : OAuthServer) (now : time.Time)
    (req_start req_cb : http.Request) (access : slack.Access) (auth : slack.Auth)
    (encoded : string) :
  http.FormErr req_start = None ->
  callback_authenticates E s req_cb access auth ->
  securecookie.Encode (secureCookie s) (CookieKey s) auth = (encoded, None) ->
  let rd := http.FormValue req_start "rd" in
  let state := url.Get (http.Form req_cb) "state" in
  let target_start :=
    if String.eqb rd "" || String.eqb rd signInPath then "/" else rd in
  let target_callback := if String.eqb state "" then "/" else state in
  GetRedirect req_start = (target_start, None)
  /\ same_origin_path target_start = (String.eqb rd "" || same_origin_path rd)
  /\ last (handleOAuthCallback E s now req_cb) = Some (http_Redirect target_callback 302)
  /\ same_origin_path target_callback = (String.eqb state "" || same_origin_path state).
Proof.
  intros Hf Ha He rd state target_start target_callback.
  subst target_start target_callback.
  rewrite (GetRedirect_parsed req_start Hf). fold rd.
  rewrite (callback_success E s now req_cb access auth encoded Ha He). fold state.
  cbn [last]. repeat split.
  - destruct (String.eqb rd "") eqn:H1; [reflexivity|].
    destruct (String.eqb rd signInPath) eqn:H2; [|reflexivity].
    apply String.eqb_eq in H2. rewrite H2. reflexivity.
  - destruct (String.eqb state ""); reflexivity.
Qed.

(** C2, as the claim has it, fails: an absolute URL to another host, given
    as [rd] or as [state], is the redirect target. *)
Lemma redirect_target_can_be_external :
  GetRedirect (Sample.start_req "https://evil.example/") = ("https://evil.example/", None)
  /\ last (ServeHTTP Sample.env (Sample.server_of Sample.conf) 1000
             (Sample.callback_req "https://evil.example/"))
     = Some (http_Redirect "https://evil.example/" 302)
  /\ same_origin_path "https://evil.example/" = false.
Proof. repeat split; vm_compute; reflexivity. Qed.

(** C4, as the code has it.  [GetRedirect] resolves an [rd] that is empty or
    the sign-in path to ["/"]; the callback resolves an empty [state] to
    ["/"] and redirects to any other [state] as it is. *)
Theorem redirect_target_default (E : Env) (s : OAuthServer) (now : time.Time)
    (req_start req_cb : http.Request) (access : slack.Access) (auth : slack.Auth)
    (encoded : string) :
  http.FormErr req_start = None ->
  callback_authenticates E s req_cb access auth ->
  securecookie.Encode (secureCookie s) (CookieKey s) auth = (encoded, None) ->
  let rd := http.FormValue req_start "rd" in
  let state := url.Get (http.Form req_cb) "state" in
  (rd = "" \/ rd = signInPath -> GetRedirect req_start = ("/", None))
  /\ (rd <> "" -> rd <> signInPath -> GetRedirect req_start = (rd, None))
  /\ (state = "" ->
      last (handleOAuthCallback E s now req_cb) = Some (http_Redirect "/" 302))
  /\ (state <> "" ->
      last (handleOAuthCallback E s now req_cb) = Some (http_Redirect state 302)).
Proof.
  intros Hf Ha He rd state.
  rewrite (GetRedirect_parsed req_start Hf).
  rewrite (callback_success E s now req_cb access auth encoded Ha He).
  fold rd. fold state. cbn [last]. repeat split.
  - intros [->| ->]; reflexivity.
  - intros H1 H2. apply String.eqb_neq in H1, H2. rewrite H1, H2. reflexivity.
  - intros ->. reflexivity.
  - intros H1. apply String.eqb_neq in H1. rewrite H1. reflexivity.
Qed.

(** C4, as the claim has it, fails: a [state] equal to the sign-in path is
    the callback's redirect target, not ["/"]. *)
Lemma callback_redirects_to_sign_in_path :
  url.Get (http.Form (Sample.callback_req signInPath)) "state" = signInPath
  /\ last (ServeHTTP Sample.env (Sample.server_of Sample.conf) 1000
             (Sample.callback_req signInPath))
     = Some (http_Redirect "/oauth2/sign_in" 302)
  /\ "/oauth2/sign_in" <> "/".
Proof. repeat split; try (vm_compute; reflexivity). discriminate. Qed.

(** *** Construction and the session cookie *)

(** What a server that [NewOauthServer] returned is made of. *)
Lemma NewOauthServer_started (E : Env) (oauth : slack.OAuthClient) (c : Configuration)
    (s : OAuthServer) :
  NewOauthServer E oauth c = Started s ->
  exists hashKey blockKey,
    base64_DecodeString E (CookieHashKey c) = Ok hashKey
    /\ base64_DecodeString E (CookieBlockKey c) = Ok blockKey
    /\ secureCookie s = securecookie_New E hashKey blockKey
    /\ CookieKey s = "_slackauthproxy"
    /\ CookieDomain (config s) = CookieDomain c.
Proof.
  unfold NewOauthServer, decode64, mbind, Startup_bind.
  destruct (mount_all _ _) as [[mux tbl]|m|m]; try discriminate.
  destruct (base64_DecodeString E (CookieHashKey c)) as [hk|e]; try discriminate.
  destruct (base64_DecodeString E (CookieBlockKey c)) as [bk|e]; try discriminate.
  intros [= <-]. exists hk, bk. repeat split; reflexivity.
Qed.

(** C10.  When the hash key or the block key of the configuration is not
    base64, [NewOauthServer] returns no server: once the upstreams are
    mounted it ends in [log.Fatalf].  A server that is returned holds the
    codec of the two decoded keys. *)
Theorem malformed_key_is_fatal (E : Env) (oauth : slack.OAuthClient) (c : Configuration) :
  (exists e, base64_DecodeString E (CookieHashKey c) = Err e)
  \/ (exists e, base64_DecodeString E (CookieBlockKey c) = Err e) ->
  (forall s, NewOauthServer E oauth c <> Started s)
  /\ (forall st, mount_all (Upstreams c) (http.NewServeMux, ∅) = Started st ->
        exists msg, NewOauthServer E oauth c = Fatal msg).
Proof.
  intros Hbad. split.
  - intros s Hs.
    destruct (NewOauthServer_started E oauth c s Hs) as (hk & bk & H1 & H2 & _).
    destruct Hbad as [[e He]|[e He]]; congruence.
  - intros [mux tbl] Hm.
    unfold NewOauthServer, decode64, mbind, Startup_bind. rewrite Hm.
    destruct (base64_DecodeString E (CookieHashKey c)) as [hk|e1]; [|eauto].
    destruct (base64_DecodeString E (CookieBlockKey c)) as [bk|e2]; [|eauto].
    destruct Hbad as [[e He]|[e He]]; discriminate.
Qed.

(** The session cookie.  On a successful callback of a server built by
    [NewOauthServer], one cookie is set: its name is "_slackauthproxy", its value the encoded
    identity, its path "/", it is HttpOnly, and it expires 7 days of 24 hours
    after the request is served; its domain is the configured cookie domain
    when that is not empty and the request host without port ends with it,
    and the request host without port otherwise; the host without port
    being the text of the host before its first colon. *)
Theorem session_cookie_attributes (E : Env) (oauth : slack.OAuthClient) (c : Configuration)
    (s : OAuthServer) (now : time.Time) (req : http.Request) (access : slack.Access)
    (auth : slack.Auth) (encoded : string) :
  NewOauthServer E oauth c = Started s ->
  url.Path (http.URL req) = oauthCallbackPath ->
  callback_authenticates E s req access auth ->
  securecookie.Encode (secureCookie s) (CookieKey s) auth = (encoded, None) ->
  exists cookie hostname,
    List.filter is_set_cookie (ServeHTTP E s now req) = [http_SetCookie cookie]
    /\ http.Name cookie = "_slackauthproxy"
    /\ http.Value cookie = encoded
    /\ http.Path cookie = "/"
    /\ http.HttpOnly cookie = true
    /\ http.Expires cookie = now + 7 * (24 * time.Hour)
    /\ port_stripped (http.Host req) hostname
    /\ (CookieDomain c <> "" -> (exists pre, hostname = pre ++ CookieDomain c) ->
        http.Domain cookie = CookieDomain c)
    /\ (CookieDomain c = "" \/ ~ (exists pre, hostname = pre ++ CookieDomain c) ->
        http.Domain cookie = hostname).
Proof.
  intros Hs Hp Ha He.
  destruct (NewOauthServer_started E oauth c s Hs) as (hk & bk & _ & _ & _ & Hk & Hd).
  rewrite (ServeHTTP_callback E s now req Hp).
  rewrite (callback_success E s now req access auth encoded Ha He).
  eexists _, (strings.Split0 (http.Host req) ":").
  split; [reflexivity|]. cbn [http.Name http.Value http.Path http.HttpOnly http.Expires
                              http.Domain].
  split; [exact Hk|]. do 3 (split; [reflexivity|]).
  split; [lia|]. split; [apply Split0_spec|].
  unfold getCookieDomain. rewrite Hd. split.
  - intros Hne Hsuf. apply String.eqb_neq in Hne. apply HasSuffix_spec in Hsuf.
    rewrite Hne, Hsuf. reflexivity.
  - intros [Hempty|Hno].
    + rewrite Hempty. reflexivity.
    + destruct (strings.HasSuffix _ _) eqn:Hsuf.
      * apply HasSuffix_spec in Hsuf. contradiction.
      * rewrite andb_false_r. reflexivity.
Qed.

(** *** The statements at concrete requests *)

(** C1 at GET /foo with the cookie "garbage": forwarded to the upstream
    mounted at "/". *)
Lemma failed_decode_is_forwarded_witness :
  ServeHTTP Sample.env (Sample.server_of Sample.conf) 1000 Sample.garbage_req
    = [handler_ServeHTTP Sample.root_proxy Sample.garbage_req]
  /\ ServeHTTP Sample.env (Sample.server_of Sample.conf) 1000 Sample.garbage_req
     <> handleSignIn Sample.env (Sample.server_of Sample.conf) 1000 Sample.garbage_req.
Proof.
  apply (failed_decode_is_forwarded Sample.env (Sample.server_of Sample.conf) 1000
           Sample.garbage_req Sample.root_proxy "/" (clear_path Sample.backend)
           "garbage" slack.new_Auth "securecookie: the value is not valid");
    vm_compute; reflexivity.
Defined.

(** C5 at GET /wiki/a with the session of a user outside the team. *)
Lemma rejected_identity_gets_sign_in_witness :
  ServeHTTP Sample.env (Sample.server_of Sample.conf) 1000 Sample.outsider_req
    = handleSignIn Sample.env (Sample.server_of Sample.conf) 1000 Sample.outsider_req
  /\ In (tmpl_ExecuteTemplate "sign_in.html"
           (SignInData "Sign in" (URL_RequestURI Sample.env (http.URL Sample.outsider_req))))
        (ServeHTTP Sample.env (Sample.server_of Sample.conf) 1000 Sample.outsider_req)
  /\ existsb is_forward
       (ServeHTTP Sample.env (Sample.server_of Sample.conf) 1000 Sample.outsider_req) = false.
Proof.
  apply (rejected_identity_gets_sign_in Sample.env (Sample.server_of Sample.conf) 1000
           Sample.outsider_req
           (http.ReverseProxy (HostURL (clear_path Sample.team_backend))) "/wiki/"
           (clear_path Sample.team_backend) "_slackauthproxy|bob"
           (Sample.with_Username slack.new_Auth "bob"));
    vm_compute; reflexivity.
Defined.

(** C7 at GET /unmapped/path on a server with the wiki alone. *)
Lemma unresolved_path_is_404_witness :
  ServeHTTP Sample.env (Sample.server_of Sample.conf_wiki_only) 1000 Sample.unmapped_req
    = [http_NotFound].
Proof.
  refine (proj2 (proj2 (unresolved_path_is_404 Sample.env
            (Sample.server_of Sample.conf_wiki_only) 1000 Sample.unmapped_req
            http.NotFoundHandler "" _ _)) _ _);
    vm_compute; reflexivity.
Defined.

(** C8 at GET /oauth2/sign_in?rd=/dashboard. *)
Lemma sign_in_clears_then_renders_witness :
  exists tail,
    ServeHTTP Sample.env (Sample.server_of Sample.conf) 1000 Sample.sign_in_req =
      http_SetCookie {| http.Name := "_slackauthproxy"; http.Value := ""; http.Path := "/";
                        http.Domain := "example.com";
                        http.Expires := 1000 - time.Hour; http.HttpOnly := true |} ::
      tmpl_ExecuteTemplate "sign_in.html"
        (SignInData "Sign in" "/oauth2/sign_in?rd=/dashboard") :: tail
    /\ (tail = [] \/ exists msg, tail = [http_Error msg 500]).
Proof.
  refine (proj1 (sign_in_clears_then_renders Sample.env (Sample.server_of Sample.conf) 1000
                   Sample.sign_in_req _)).
  reflexivity.
Defined.

(** C3 at a callback of a server whose block key is six bytes long: every
    [Encode] fails. *)
Lemma encode_failure_falls_through_witness :
  ServeHTTP Sample.env (Sample.server_of Sample.conf_short_key) 1000
    (Sample.callback_req "/dashboard")
  = [oauth_RedeemCode "abc"; slack_Auth_Test "xoxp-abc";
     rw_WriteHeader 500;
     tmpl_ExecuteTemplate "error.html"
       (ErrorData "500 Internal Error" "Error encoding auth cookie");
     http_SetCookie {| http.Name := "_slackauthproxy"; http.Value := ""; http.Path := "/";
                       http.Domain := "app.example.org";
                       http.Expires := 604800000001000; http.HttpOnly := true |};
     http_Redirect "/dashboard" 302].
Proof.
  refine (proj1 (encode_failure_falls_through Sample.env
            (Sample.server_of Sample.conf_short_key) 1000 (Sample.callback_req "/dashboard")
            Sample.access_abc Sample.alice "" "crypto/aes: invalid key size 6" _ _ _)).
  - reflexivity.
  - repeat split; vm_compute; reflexivity.
  - vm_compute; reflexivity.
Defined.

(** C6 at GET /oauth2/callback?error=access_denied. *)
Lemma provider_error_is_denied_witness :
  existsb is_provider_call
    (ServeHTTP Sample.env (Sample.server_of Sample.conf) 1000 Sample.denied_req) = false
  /\ existsb is_set_cookie
       (ServeHTTP Sample.env (Sample.server_of Sample.conf) 1000 Sample.denied_req) = false.
Proof.
  refine (proj2 (proj2 (provider_error_is_denied Sample.env (Sample.server_of Sample.conf)
                          1000 Sample.denied_req _ _))).
  - reflexivity.
  - vm_compute. discriminate.
Defined.

(** C2 at rd=/dashboard and state=/dashboard. *)
Lemma redirect_target_is_callers_value_witness :
  GetRedirect (Sample.start_req "/dashboard") = ("/dashboard", None)
  /\ last (handleOAuthCallback Sample.env (Sample.server_of Sample.conf) 1000
             (Sample.callback_req "/dashboard")) = Some (http_Redirect "/dashboard" 302).
Proof.
  pose proof (redirect_target_is_callers_value Sample.env (Sample.server_of Sample.conf)
                1000 (Sample.start_req "/dashboard") (Sample.callback_req "/dashboard")
                Sample.access_abc Sample.alice "_slackauthproxy|alice") as H.
  refine ((fun H' => conj (proj1 H') (proj1 (proj2 (proj2 H')))) (H _ _ _)).
  - reflexivity.
  - repeat split; vm_compute; reflexivity.
  - vm_compute; reflexivity.
Defined.

(** C4 at rd=/oauth2/sign_in and an empty state. *)
Lemma redirect_target_default_witness :
  GetRedirect (Sample.start_req signInPath) = ("/", None).
Proof.
  refine (proj1 (redirect_target_default Sample.env (Sample.server_of Sample.conf)
                   1000 (Sample.start_req signInPath) (Sample.callback_req "")
                   Sample.access_abc Sample.alice "_slackauthproxy|alice" _ _ _) _).
  - reflexivity.
  - repeat split; vm_compute; reflexivity.
  - vm_compute; reflexivity.
  - right. vm_compute; reflexivity.
Defined.

(** C10 at a configuration whose block key is "not base64!". *)
Lemma malformed_key_is_fatal_witness :
  (forall s, NewOauthServer Sample.env Sample.provider Sample.conf_bad_key <> Started s)
  /\ (forall st,
        mount_all (Upstreams Sample.conf_bad_key) (http.NewServeMux, ∅) = Started st ->
        exists msg, NewOauthServer Sample.env Sample.provider Sample.conf_bad_key = Fatal msg).
Proof.
  apply (malformed_key_is_fatal Sample.env Sample.provider Sample.conf_bad_key).
  right. exists "illegal base64 data at input byte 3". vm_compute; reflexivity.
Defined.

(** The session cookie at GET /oauth2/callback?code=abc&state=/dashboard for
    the host app.example.org:8080, the cookie domain being example.com. *)
Lemma session_cookie_attributes_witness :
  exists cookie hostname,
    List.filter is_set_cookie
      (ServeHTTP Sample.env (Sample.server_of Sample.conf) 1000
         (Sample.callback_req "/dashboard")) = [http_SetCookie cookie]
    /\ http.Name cookie = "_slackauthproxy"
    /\ http.Value cookie = "_slackauthproxy|alice"
    /\ http.Path cookie = "/"
    /\ http.HttpOnly cookie = true
    /\ http.Expires cookie = 1000 + 7 * (24 * time.Hour)
    /\ port_stripped (http.Host (Sample.callback_req "/dashboard")) hostname
    /\ (CookieDomain Sample.conf <> "" ->
        (exists pre, hostname = pre ++ CookieDomain Sample.conf) ->
        http.Domain cookie = CookieDomain Sample.conf)
    /\ (CookieDomain Sample.conf = ""
        \/ ~ (exists pre, hostname = pre ++ CookieDomain Sample.conf) ->
        http.Domain cookie = hostname).
Proof.
  apply (session_cookie_attributes Sample.env Sample.provider Sample.conf
           (Sample.server_of Sample.conf) 1000 (Sample.callback_req "/dashboard")
           Sample.access_abc Sample.alice "_slackauthproxy|alice").
  - vm_compute; reflexivity.
  - reflexivity.
  - repeat split; vm_compute; reflexivity.
  - vm_compute; reflexivity.
Defined.

(** ** Further properties *)

(** *** The loop over the upstreams *)

Lemma mount_path_nonempty (upstream : UpstreamConfiguration) : mount_path upstream <> "".
Proof.
  unfold mount_path. destruct (String.eqb (url.Path (HostURL upstream)) "") eqn:H.
  - discriminate.
  - apply String.eqb_neq, H.
Qed.

Lemma mount_eq (upstream : UpstreamConfiguration) (mux : http.ServeMux)
    (tbl : UpstreamConfigurationMap) :
  mount upstream (mux, tbl) =
    if http.registered mux (mount_path upstream)
    then Panic ("http: multiple registrations for " ++ mount_path upstream)
    else Started ((mux ++ [mount_entry upstream])%list, mount_insert tbl upstream).
Proof.
  unfold mount, http.Handle. fold (mount_path upstream).
  pose proof (mount_path_nonempty upstream) as Hne. apply String.eqb_neq in Hne.
  rewrite Hne. destruct (http.registered mux (mount_path upstream)); reflexivity.
Qed.

Lemma registered_spec (mux : http.ServeMux) (p : string) :
  http.registered mux p = true <-> p ∈ mux.*1.
Proof.
  unfold http.registered. induction mux as [|[q h] mux IH]; simpl.
  - split; [discriminate | intros H; inversion H].
  - rewrite orb_true_iff, IH, String.eqb_eq, elem_of_cons. split; intros [H|H]; auto.
Qed.

Lemma registered_false (mux : http.ServeMux) (p : string) :
  http.registered mux p = false <-> p ∉ mux.*1.
Proof.
  rewrite <- registered_spec. destruct (http.registered mux p); split; congruence.
Qed.

(** The loop returns exactly when no pattern is registered twice; the mux
    and the table it returns then hold one entry per upstream, in order. *)
Lemma mount_all_started (upstreams : list UpstreamConfiguration) (mux mux' : http.ServeMux)
    (tbl tbl' : UpstreamConfigurationMap) :
  mount_all upstreams (mux, tbl) = Started (mux', tbl') <->
  NoDup (mount_path <$> upstreams)
  /\ (forall u, u ∈ upstreams -> mount_path u ∉ mux.*1)
  /\ mux' = (mux ++ (mount_entry <$> upstreams))%list
  /\ tbl' = foldl mount_insert tbl upstreams.
Proof.
  revert mux tbl. induction upstreams as [|u ups IH]; intros mux tbl.
  - simpl. rewrite app_nil_r. split.
    + intros [= <- <-]. repeat split; [constructor | intros u Hu; inversion Hu].
    + intros (_ & _ & -> & ->). reflexivity.
  - cbn [mount_all]. unfold mbind, Startup_bind. rewrite mount_eq.
    destruct (http.registered mux (mount_path u)) eqn:Hr.
    + split; [discriminate|]. intros (_ & Hfresh & _).
      apply registered_spec in Hr. exfalso. apply (Hfresh u); [left | exact Hr].
    + apply registered_false in Hr. rewrite IH.
      rewrite fmap_cons, NoDup_cons, fmap_app, <- (assoc_L app). cbn [foldl app fmap list_fmap].
      split.
      * intros (Hnd & Hfresh & -> & ->). repeat split; auto.
        -- intros Hin. apply list_elem_of_fmap in Hin as (v & Hv & Hin).
           apply (Hfresh v Hin). rewrite elem_of_app. right. rewrite <- Hv.
           apply list_elem_of_singleton. reflexivity.
        -- intros v Hv. apply elem_of_cons in Hv as [->|Hv]; [exact Hr|].
           intros Hin. apply (Hfresh v Hv). rewrite elem_of_app. left. exact Hin.
      * intros ((Hu & Hnd) & Hfresh & -> & ->). repeat split; auto.
        intros v Hv. rewrite elem_of_app. intros [Hin|Hin].
        -- apply (Hfresh v); [right; exact Hv | exact Hin].
        -- cbn in Hin. apply list_elem_of_singleton in Hin.
           apply Hu. apply list_elem_of_fmap. exists v. split; [symmetry; exact Hin | exact Hv].
Qed.

Lemma mount_all_panic (upstreams : list UpstreamConfiguration)
    (st : http.ServeMux * UpstreamConfigurationMap) (msg : string) :
  mount_all upstreams st = Panic msg ->
  exists u, u ∈ upstreams /\ msg = "http: multiple registrations for " ++ mount_path u.
Proof.
  revert st. induction upstreams as [|u ups IH]; intros [mux tbl]; [discriminate|].
  cbn [mount_all]. unfold mbind, Startup_bind. rewrite mount_eq.
  destruct (http.registered mux (mount_path u)).
  - intros [= <-]. exists u. split; [left | reflexivity].
  - intros H. destruct (IH _ H) as (v & Hv & ->). exists v. split; [right; exact Hv | reflexivity].
Qed.

Lemma mount_all_not_fatal (upstreams : list UpstreamConfiguration)
    (st : http.ServeMux * UpstreamConfigurationMap) (msg : string) :
  mount_all upstreams st <> Fatal msg.
Proof.
  revert st. induction upstreams as [|u ups IH]; intros [mux tbl]; [discriminate|].
  cbn [mount_all]. unfold mbind, Startup_bind. rewrite mount_eq.
  destruct (http.registered mux (mount_path u)); [discriminate | apply IH].
Qed.

Lemma foldl_mount_fresh (upstreams : list UpstreamConfiguration)
    (tbl : UpstreamConfigurationMap) (p : string) :
  p ∉ mount_path <$> upstreams -> foldl mount_insert tbl upstreams !! p = tbl !! p.
Proof.
  revert tbl. induction upstreams as [|u ups IH]; intros tbl Hp; [reflexivity|].
  rewrite fmap_cons, not_elem_of_cons in Hp. destruct Hp as [Hne Hp].
  cbn [foldl]. rewrite (IH _ Hp). unfold mount_insert. apply lookup_insert_ne. congruence.
Qed.

(** The table finds every mounted upstream under its pattern. *)
Lemma foldl_mount_lookup (upstreams : list UpstreamConfiguration)
    (tbl : UpstreamConfigurationMap) (u : UpstreamConfiguration) :
  NoDup (mount_path <$> upstreams) -> u ∈ upstreams ->
  foldl mount_insert tbl upstreams !! mount_path u = Some (clear_path u).
Proof.
  revert tbl. induction upstreams as [|v ups IH]; intros tbl Hnd Hu; [inversion Hu|].
  rewrite fmap_cons, NoDup_cons in Hnd. destruct Hnd as [Hv Hnd].
  cbn [foldl]. apply elem_of_cons in Hu as [->|Hu].
  - rewrite (foldl_mount_fresh ups _ _ Hv). unfold mount_insert. apply lookup_insert_eq.
  - apply IH; assumption.
Qed.

(** The table holds nothing but the mounted upstreams. *)
Lemma foldl_mount_lookup_inv (upstreams : list UpstreamConfiguration)
    (tbl : UpstreamConfigurationMap) (p : string) (v : UpstreamConfiguration) :
  foldl mount_insert tbl upstreams !! p = Some v ->
  tbl !! p = Some v \/ exists u, u ∈ upstreams /\ mount_path u = p /\ v = clear_path u.
Proof.
  revert tbl. induction upstreams as [|u ups IH]; intros tbl H; [left; exact H|].
  cbn [foldl] in H. destruct (IH _ H) as [H'|(w & Hw & Hp & Hv)].
  - unfold mount_insert in H'. rewrite lookup_insert in H'.
    destruct (decide (mount_path u = p)) as [Hp|Hp].
    + right. exists u. split; [left|]. split; [exact Hp | congruence].
    + left. exact H'.
  - right. exists w. split; [right; exact Hw | auto].
Qed.

(** [NewOauthServer] returns exactly when the mount paths are distinct and
    both keys decode, and then returns this server. *)
Lemma NewOauthServer_started_iff (E : Env) (oauth : slack.OAuthClient) (c : Configuration)
    (s : OAuthServer) :
  NewOauthServer E oauth c = Started s <->
  NoDup (mount_path <$> Upstreams c)
  /\ exists hashKey blockKey,
       base64_DecodeString E (CookieHashKey c) = Ok hashKey
       /\ base64_DecodeString E (CookieBlockKey c) = Ok blockKey
       /\ s = {| CookieKey := "_slackauthproxy";
                 Validator := NewValidator E;
                 slackOauth := oauth;
                 serveMux := mount_entry <$> Upstreams c;
                 staticHandler := http.FileServer "static";
                 secureCookie := securecookie_New E hashKey blockKey;
                 upstreamsConfig := foldl mount_insert ∅ (Upstreams c);
                 config := {| Upstreams := map clear_path (Upstreams c);
                              CookieHashKey := CookieHashKey c;
                              CookieBlockKey := CookieBlockKey c;
                              CookieDomain := CookieDomain c |} |}.
Proof.
  unfold NewOauthServer, decode64, mbind, Startup_bind.
  destruct (mount_all (Upstreams c) (http.NewServeMux, ∅)) as [[mux tbl]|m|m] eqn:Hm.
  - apply mount_all_started in Hm as (Hnd & _ & -> & ->). cbn [app http.NewServeMux].
    destruct (base64_DecodeString E (CookieHashKey c)) as [hk|e1].
    + destruct (base64_DecodeString E (CookieBlockKey c)) as [bk|e2].
      * split.
        -- intros [= <-]. split; [exact Hnd|]. exists hk, bk. auto.
        -- intros (_ & hk' & bk' & [= <-] & [= <-] & ->). reflexivity.
      * split; [discriminate|]. intros (_ & hk' & bk' & _ & H & _). discriminate.
    + split; [discriminate|]. intros (_ & hk' & bk' & H & _). discriminate.
  - exfalso. exact (mount_all_not_fatal _ _ _ Hm).
  - split; [discriminate|]. intros (Hnd & _). exfalso.
    assert (mount_all (Upstreams c) (http.NewServeMux, ∅)
            = Started (([] ++ (mount_entry <$> Upstreams c))%list,
                       foldl mount_insert ∅ (Upstreams c))) as H.
    { apply mount_all_started. repeat split; auto. intros u _ Hin. inversion Hin. }
    congruence.
Qed.

(** The table of a server that [NewOauthServer] returned. *)
Lemma started_table (E : Env) (oauth : slack.OAuthClient) (c : Configuration)
    (s : OAuthServer) :
  NewOauthServer E oauth c = Started s ->
  NoDup (mount_path <$> Upstreams c)
  /\ upstreamsConfig s = foldl mount_insert ∅ (Upstreams c)
  /\ serveMux s = mount_entry <$> Upstreams c.
Proof.
  intros H. apply NewOauthServer_started_iff in H as (Hnd & hk & bk & _ & _ & ->).
  auto.
Qed.

(** *** Construction *)

(** X1.  [NewOauthServer] returns a server exactly when the configured
    upstreams have distinct mount paths (the empty path counting as "/") and
    both cookie keys are base64. *)
Theorem NewOauthServer_starts_iff (E : Env) (oauth : slack.OAuthClient) (c : Configuration) :
  (exists s, NewOauthServer E oauth c = Started s) <->
  NoDup (mount_path <$> Upstreams c)
  /\ (exists hashKey, base64_DecodeString E (CookieHashKey c) = Ok hashKey)
  /\ (exists blockKey, base64_DecodeString E (CookieBlockKey c) = Ok blockKey).
Proof.
  split.
  - intros [s Hs]. apply NewOauthServer_started_iff in Hs as (Hnd & hk & bk & H1 & H2 & _).
    eauto.
  - intros (Hnd & [hk H1] & [bk H2]). eexists.
    apply NewOauthServer_started_iff. split; [exact Hnd|]. exists hk, bk. eauto.
Qed.

(** X2.  When two upstreams have the same mount path, [NewOauthServer]
    panics in [serveMux.Handle] on a path mounted twice, whatever the keys
    are: the loop runs before the keys are decoded. *)
Theorem duplicate_mount_panics (E : Env) (oauth : slack.OAuthClient) (c : Configuration) :
  ~ NoDup (mount_path <$> Upstreams c) ->
  exists u, u ∈ Upstreams c
    /\ NewOauthServer E oauth c = Panic ("http: multiple registrations for " ++ mount_path u).
Proof.
  intros Hdup. unfold NewOauthServer, mbind, Startup_bind.
  destruct (mount_all (Upstreams c) (http.NewServeMux, ∅)) as [[mux tbl]|m|m] eqn:Hm.
  - apply mount_all_started in Hm as (Hnd & _). contradiction.
  - exfalso. exact (mount_all_not_fatal _ _ _ Hm).
  - destruct (mount_all_panic _ _ _ Hm) as (u & Hu & ->). exists u. auto.
Qed.

(** X3.  The table of a server that [NewOauthServer] returned maps exactly
    the mount paths of the configured upstreams, each to its upstream with
    the path of its URL cleared. *)
Theorem started_table_holds_upstreams (E : Env) (oauth : slack.OAuthClient)
    (c : Configuration) (s : OAuthServer) :
  NewOauthServer E oauth c = Started s ->
  forall p v,
    upstreamsConfig s !! p = Some v <->
    exists u, u ∈ Upstreams c /\ mount_path u = p /\ v = clear_path u.
Proof.
  intros Hs p v. apply started_table in Hs as (Hnd & -> & _). split.
  - intros H. apply foldl_mount_lookup_inv in H as [H|H]; [|exact H].
    rewrite lookup_empty in H. discriminate.
  - intros (u & Hu & <- & ->). apply foldl_mount_lookup; assumption.
Qed.

(** X4.  In a server that [NewOauthServer] returned, the patterns registered
    in the mux are the keys of the table, and none of them is empty. *)
Theorem started_mux_matches_table (E : Env) (oauth : slack.OAuthClient)
    (c : Configuration) (s : OAuthServer) :
  NewOauthServer E oauth c = Started s ->
  forall p,
    (http.registered (serveMux s) p = true <-> is_Some (upstreamsConfig s !! p))
    /\ (http.registered (serveMux s) p = true -> p <> "").
Proof.
  intros Hs p. apply started_table in Hs as (Hnd & -> & ->).
  assert (http.registered (mount_entry <$> Upstreams c) p = true
          <-> exists u, u ∈ Upstreams c /\ mount_path u = p) as Hreg.
  { rewrite registered_spec, <- list_fmap_compose, list_elem_of_fmap.
    split; intros (u & H1 & H2); exists u; auto. }
  split.
  - rewrite Hreg. split.
    + intros (u & Hu & <-). exists (clear_path u). apply foldl_mount_lookup; assumption.
    + intros [v H]. apply foldl_mount_lookup_inv in H as [H|(u & Hu & Hp & _)]; eauto.
      rewrite lookup_empty in H. discriminate.
  - intros H. apply Hreg in H as (u & _ & <-). apply mount_path_nonempty.
Qed.

(** X5.  On a server that [NewOauthServer] returned, a request past the
    control paths for which the mux resolves no pattern (the empty pattern)
    is answered with [http.NotFound], whatever cookie it carries. *)
Theorem unmatched_request_is_404 (E : Env) (oauth : slack.OAuthClient) (c : Configuration)
    (s : OAuthServer) (now : time.Time) (req : http.Request) (handler : http.Handler) :
  NewOauthServer E oauth c = Started s ->
  special_path (url.Path (http.URL req)) = false ->
  mux_Handler E (serveMux s) req = (handler, "") ->
  ServeHTTP E s now req = [http_NotFound].
Proof.
  intros Hs Hp Hm. rewrite (ServeHTTP_routed E s now req handler "" Hp Hm).
  rewrite lookup_upstream_eq. cbn [strip_leading_slash].
  apply started_table in Hs as (_ & -> & _).
  destruct (foldl mount_insert ∅ (Upstreams c) !! "") as [v|] eqn:H; [|reflexivity].
  apply foldl_mount_lookup_inv in H as [H|(u & _ & Hu & _)].
  - rewrite lookup_empty in H. discriminate.
  - exfalso. exact (mount_path_nonempty u Hu).
Qed.

(** X6.  On a server that [NewOauthServer] returned, a request past the
    control paths for which the mux resolves the mount path of a configured
    upstream is never answered 404: the first lookup finds that upstream,
    and the request is forwarded to the mux's handler when the cookie check
    passes against it, and gets the sign-in response otherwise. *)
Theorem mounted_upstream_gates (E : Env) (oauth : slack.OAuthClient) (c : Configuration)
    (s : OAuthServer) (now : time.Time) (req : http.Request) (handler : http.Handler)
    (u : UpstreamConfiguration) :
  NewOauthServer E oauth c = Started s ->
  special_path (url.Path (http.URL req)) = false ->
  u ∈ Upstreams c ->
  mux_Handler E (serveMux s) req = (handler, mount_path u) ->
  upstreamsConfig s !! mount_path u = Some (clear_path u)
  /\ ServeHTTP E s now req =
       (if check_cookie s req (clear_path u) then [handler_ServeHTTP handler req]
        else handleSignIn E s now req)
  /\ existsb is_not_found (ServeHTTP E s now req) = false.
Proof.
  intros Hs Hp Hu Hm.
  assert (upstreamsConfig s !! mount_path u = Some (clear_path u)) as Hl.
  { apply started_table in Hs as (Hnd & -> & _). apply foldl_mount_lookup; assumption. }
  rewrite (ServeHTTP_routed E s now req handler _ Hp Hm), lookup_upstream_eq, Hl.
  split; [reflexivity|]. split; [reflexivity|].
  destruct (check_cookie s req (clear_path u)); [reflexivity|].
  destruct (handleSignIn_shape E s now req) as (tail & -> & [->|[msg ->]]); reflexivity.
Qed.

Lemma duplicate_mount_panics_witness :
  exists u, u ∈ Upstreams Sample.conf_twice_root
    /\ NewOauthServer Sample.env Sample.provider Sample.conf_twice_root
       = Panic ("http: multiple registrations for " ++ mount_path u).
Proof.
  apply (duplicate_mount_panics Sample.env Sample.provider Sample.conf_twice_root).
  apply (proj1 (bool_decide_eq_false _)). vm_compute. reflexivity.
Defined.

Lemma started_table_holds_upstreams_witness :
  upstreamsConfig (Sample.server_of Sample.conf) !! "/wiki/" = Some (clear_path Sample.team_backend)
  <-> exists u, u ∈ Upstreams Sample.conf /\ mount_path u = "/wiki/"
                /\ clear_path Sample.team_backend = clear_path u.
Proof.
  apply (started_table_holds_upstreams Sample.env Sample.provider Sample.conf
           (Sample.server_of Sample.conf)).
  vm_compute. reflexivity.
Defined.

Lemma started_mux_matches_table_witness :
  (http.registered (serveMux (Sample.server_of Sample.conf)) "/wiki/" = true
   <-> is_Some (upstreamsConfig (Sample.server_of Sample.conf) !! "/wiki/"))
  /\ (http.registered (serveMux (Sample.server_of Sample.conf)) "/wiki/" = true
      -> "/wiki/" <> "").
Proof.
  apply (started_mux_matches_table Sample.env Sample.provider Sample.conf
           (Sample.server_of Sample.conf)).
  vm_compute. reflexivity.
Defined.

Lemma unmatched_request_is_404_witness :
  ServeHTTP Sample.env (Sample.server_of Sample.conf_wiki_only) 1000 Sample.anonymous_req
    = [http_NotFound].
Proof.
  apply (unmatched_request_is_404 Sample.env Sample.provider Sample.conf_wiki_only
           (Sample.server_of Sample.conf_wiki_only) 1000 Sample.anonymous_req
           http.NotFoundHandler);
    vm_compute; reflexivity.
Defined.

Lemma mounted_upstream_gates_witness :
  existsb is_not_found
    (ServeHTTP Sample.env (Sample.server_of Sample.conf) 1000 Sample.anonymous_req) = false.
Proof.
  refine (proj2 (proj2 (mounted_upstream_gates Sample.env Sample.provider Sample.conf
            (Sample.server_of Sample.conf) 1000 Sample.anonymous_req Sample.root_proxy
            Sample.backend _ _ _ _))).
  - vm_compute; reflexivity.
  - vm_compute; reflexivity.
  - left.
  - vm_compute; reflexivity.
Defined.

(** *** Dispatch and the handlers *)

Lemma Replace1_prefix (s old new : string) :
  String.prefix old s = true ->
  strings.Replace1 s old new = new ++ strings.drop (String.length old) s.
Proof. intros H. destruct s; cbn [strings.Replace1]; rewrite H; reflexivity. Qed.

Lemma app_nil_r_string (a : string) : a ++ "" = a.
Proof. induction a as [|c a IH]; [reflexivity|]. rewrite app_cons, IH. reflexivity. Qed.

(** The events of an error page are a status, a template and possibly a
    plain error. *)
Lemma ErrorPage_events (E : Env) (code : Z) (title message : string) (f : Event -> bool) :
  f (rw_WriteHeader code) = false ->
  (forall name data, f (tmpl_ExecuteTemplate name data) = false) ->
  (forall msg c, f (http_Error msg c) = false) ->
  existsb f (ErrorPage E code title message) = false.
Proof.
  intros H1 H2 H3.
  destruct (ErrorPage_shape E code title message) as (tail & -> & [->|[msg ->]]);
    cbn [existsb]; rewrite H1, H2, ?H3; reflexivity.
Qed.

(** The five ways through [handleOAuthCallback]. *)
Lemma handleOAuthCallback_cases (E : Env) (s : OAuthServer) (now : time.Time)
    (req : http.Request) :
  let code := url.Get (http.Form req) "code" in
  let error := url.Get (http.Form req) "error" in
  (exists e, http.FormErr req = Some e
     /\ handleOAuthCallback E s now req = ErrorPage E 500 "Internal Error" e)
  \/ (http.FormErr req = None /\ error <> ""
      /\ handleOAuthCallback E s now req = ErrorPage E 403 "Permission Denied" error)
  \/ (exists e, http.FormErr req = None /\ error = ""
        /\ slack.RedeemCode (slackOauth s) code = Err e
        /\ handleOAuthCallback E s now req =
             oauth_RedeemCode code :: ErrorPage E 500 "Internal Error" e)
  \/ (exists access e, http.FormErr req = None /\ error = ""
        /\ slack.RedeemCode (slackOauth s) code = Ok access
        /\ Auth_Test E (slack.AccessToken access) = Err e
        /\ handleOAuthCallback E s now req =
             oauth_RedeemCode code :: slack_Auth_Test (slack.AccessToken access)
             :: ErrorPage E 500 "Internal Error" e)
  \/ (exists access auth encoded err, callback_authenticates E s req access auth
        /\ securecookie.Encode (secureCookie s) (CookieKey s) auth = (encoded, err)
        /\ handleOAuthCallback E s now req =
             (oauth_RedeemCode code :: slack_Auth_Test (slack.AccessToken access)
              :: match err with
                 | Some _ => ErrorPage E 500 "Internal Error" "Error encoding auth cookie"
                 | None => []
                 end
              ++ SetCookie s now req encoded
              ++ [http_Redirect (if String.eqb (url.Get (http.Form req) "state") "" then "/"
                                 else url.Get (http.Form req) "state") 302])%list).
Proof.
  intros code error. subst code error.
  unfold handleOAuthCallback, http.ParseForm.
  destruct (http.FormErr req) as [e|] eqn:Hf; [left; eauto|]. right.
  destruct (String.eqb (url.Get (http.Form req) "error") "") eqn:He; cbn [negb].
  2:{ left. apply String.eqb_neq in He. auto. }
  right. apply String.eqb_eq in He.
  destruct (slack.RedeemCode _ _) as [access|e] eqn:Hr; [|left; eauto]. right.
  destruct (Auth_Test E _) as [auth|e] eqn:Ha; [|left; eauto 8]. right.
  destruct (securecookie.Encode _ _ _) as [encoded err] eqn:Hc.
  exists access, auth, encoded, err. repeat split; auto.
Qed.

Lemma static_not_control (rest : string) :
  String.eqb (staticDir ++ rest) signInPath = false
  /\ String.eqb (staticDir ++ rest) oauthStartPath = false
  /\ String.eqb (staticDir ++ rest) oauthCallbackPath = false.
Proof.
  repeat split; apply String.eqb_neq; intros H;
    unfold staticDir, signInPath, oauthStartPath, oauthCallbackPath in H;
    rewrite !app_cons in H; discriminate H.
Qed.

(** X7.  A request whose path starts with "/_slackproxy" goes to the static
    handler with that prefix removed from its path, without any cookie being
    read, set or cleared. *)
Theorem static_assets_bypass_gate (E : Env) (s : OAuthServer) (now : time.Time)
    (req : http.Request) (rest : string) :
  url.Path (http.URL req) = staticDir ++ rest ->
  ServeHTTP E s now req =
    [handler_ServeHTTP (staticHandler s)
       (http.with_URL req (url.with_Path (http.URL req) rest))].
Proof.
  intros Hp. unfold ServeHTTP. rewrite Hp.
  destruct (static_not_control rest) as (H1 & H2 & H3). rewrite H1, H2, H3.
  unfold strings.HasPrefix. rewrite prefix_app.
  rewrite (Replace1_prefix _ _ _ (prefix_app staticDir rest)), drop_app. reflexivity.
Qed.

(** X8.  A request past the control paths that resolves to an upstream and
    carries no session cookie gets the sign-in response: the clearing
    cookie, then the sign-in template with the request URI; it is not
    forwarded and no status is written. *)
Theorem anonymous_request_gets_sign_in (E : Env) (s : OAuthServer) (now : time.Time)
    (req : http.Request) (handler : http.Handler) (pattern : string)
    (upstream : UpstreamConfiguration) :
  special_path (url.Path (http.URL req)) = false ->
  mux_Handler E (serveMux s) req = (handler, pattern) ->
  lookup_upstream s pattern = Some upstream ->
  http.Cookie_of req (CookieKey s) = None ->
  ServeHTTP E s now req = handleSignIn E s now req
  /\ (exists c tail,
        ServeHTTP E s now req =
          http_SetCookie c ::
          tmpl_ExecuteTemplate "sign_in.html"
            (SignInData "Sign in" (URL_RequestURI E (http.URL req))) :: tail
        /\ http.Value c = "")
  /\ existsb is_forward (ServeHTTP E s now req) = false
  /\ existsb is_status (ServeHTTP E s now req) = false.
Proof.
  intros Hp Hm Hl Hc.
  rewrite (ServeHTTP_routed E s now req handler pattern Hp Hm), Hl.
  rewrite (check_cookie_absent s req upstream Hc).
  split; [reflexivity|].
  destruct (handleSignIn_shape E s now req) as (tail & -> & Ht).
  split; [eexists _, tail; split; reflexivity|].
  destruct Ht as [->|[msg ->]]; split; reflexivity.
Qed.

(** X9.  A request past the control paths that resolves to an upstream is
    forwarded exactly when it carries a session cookie and the validator
    accepts, for that upstream, the record [Decode] leaves for the cookie's
    value; the error of [Decode] plays no part.  When it is forwarded, the
    mux's handler gets the request as it came and nothing else happens. *)
Theorem forwarded_iff_validator_accepts (E : Env) (s : OAuthServer) (now : time.Time)
    (req : http.Request) (handler : http.Handler) (pattern : string)
    (upstream : UpstreamConfiguration) :
  special_path (url.Path (http.URL req)) = false ->
  mux_Handler E (serveMux s) req = (handler, pattern) ->
  lookup_upstream s pattern = Some upstream ->
  let accepted :=
    exists value,
      http.Cookie_of req (CookieKey s) = Some value
      /\ Validator s
           (fst (securecookie.Decode (secureCookie s) (CookieKey s) value slack.new_Auth))
           upstream = true in
  (existsb is_forward (ServeHTTP E s now req) = true <-> accepted)
  /\ (accepted -> ServeHTTP E s now req = [handler_ServeHTTP handler req])
  /\ (~ accepted -> ServeHTTP E s now req = handleSignIn E s now req).
Proof.
  intros Hp Hm Hl accepted. subst accepted.
  rewrite (ServeHTTP_routed E s now req handler pattern Hp Hm), Hl.
  destruct (http.Cookie_of req (CookieKey s)) as [value|] eqn:Hc.
  - destruct (securecookie.Decode (secureCookie s) (CookieKey s) value slack.new_Auth)
      as [auth err] eqn:Hd.
    rewrite (check_cookie_present s req upstream value auth err Hc Hd).
    destruct (Validator s auth upstream) eqn:Hv.
    + repeat split; auto.
      * intros _. exists value. rewrite Hd. auto.
      * intros Hn. exfalso. apply Hn. exists value. rewrite Hd. auto.
    + rewrite handleSignIn_no_forward. repeat split; auto; try discriminate.
      * intros (v & [= <-] & Hv'). rewrite Hd in Hv'. cbn in Hv'. congruence.
      * intros (v & [= <-] & Hv'). rewrite Hd in Hv'. cbn in Hv'. congruence.
  - rewrite (check_cookie_absent s req upstream Hc), handleSignIn_no_forward.
    repeat split; auto; try discriminate.
    + intros (v & Hv & _). discriminate.
    + intros (v & Hv & _). discriminate.
Qed.

(** X10.  On the three OAuth control paths nothing is forwarded to a handler
    and [http.NotFound] is not called, whatever the mux and the table hold
    and whatever cookie the request carries. *)
Theorem control_paths_never_forward (E : Env) (s : OAuthServer) (now : time.Time)
    (req : http.Request) :
  url.Path (http.URL req) = signInPath \/ url.Path (http.URL req) = oauthStartPath
  \/ url.Path (http.URL req) = oauthCallbackPath ->
  existsb is_forward (ServeHTTP E s now req) = false
  /\ existsb is_not_found (ServeHTTP E s now req) = false.
Proof.
  assert (forall code title message,
            existsb is_forward (ErrorPage E code title message) = false
            /\ existsb is_not_found (ErrorPage E code title message) = false) as Herr.
  { intros. split; apply ErrorPage_events; reflexivity. }
  intros [Hp|[Hp|Hp]].
  - rewrite (ServeHTTP_sign_in E s now req Hp).
    destruct (handleSignIn_shape E s now req) as (tail & -> & [->|[msg ->]]);
      split; reflexivity.
  - rewrite (ServeHTTP_start E s now req Hp). unfold handleOAuthStart.
    destruct (GetRedirect req) as [t [e|]]; [apply Herr | split; reflexivity].
  - rewrite (ServeHTTP_callback E s now req Hp).
    destruct (handleOAuthCallback_cases E s now req)
      as [(e & _ & ->)|[(_ & _ & ->)|[(e & _ & _ & _ & ->)|[(a & e & _ & _ & _ & _ & ->)
         |(a & au & enc & err & _ & _ & ->)]]]];
      cbn [existsb is_forward is_not_found orb]; try apply Herr.
    rewrite !existsb_app. unfold SetCookie. cbn [existsb is_forward is_not_found orb].
    destruct err as [m|]; [|split; reflexivity].
    destruct (Herr 500 "Internal Error" "Error encoding auth cookie") as [-> ->].
    split; reflexivity.
Qed.

(** X11.  When the form parses, the start path answers with one call: a 302
    redirect to the provider's login URL built from the [rd] value, or from
    "/" when [rd] is empty or the sign-in path.  No cookie is set or
    cleared. *)
Theorem start_redirects_to_provider (E : Env) (s : OAuthServer) (now : time.Time)
    (req : http.Request) :
  url.Path (http.URL req) = oauthStartPath ->
  http.FormErr req = None ->
  let rd := http.FormValue req "rd" in
  ServeHTTP E s now req =
    [http_Redirect
       (slack.LoginUrl (slackOauth s)
          (if String.eqb rd "" || String.eqb rd signInPath then "/" else rd)) 302].
Proof.
  intros Hp Hf rd. rewrite (ServeHTTP_start E s now req Hp).
  unfold handleOAuthStart. rewrite (GetRedirect_parsed req Hf). reflexivity.
Qed.


(** X13.  The callback sets a cookie or redirects only when the form parsed,
    the provider sent no error, the code was redeemed and the identity was
    fetched. *)
Theorem callback_cookie_needs_provider (E : Env) (s : OAuthServer) (now : time.Time)
    (req : http.Request) :
  url.Path (http.URL req) = oauthCallbackPath ->
  existsb is_set_cookie (ServeHTTP E s now req) = true
  \/ existsb is_redirect (ServeHTTP E s now req) = true ->
  exists access auth, callback_authenticates E s req access auth.
Proof.
  intros Hp. rewrite (ServeHTTP_callback E s now req Hp).
  assert (forall code title message,
            existsb is_set_cookie (ErrorPage E code title message) = false
            /\ existsb is_redirect (ErrorPage E code title message) = false) as Herr.
  { intros. split; apply ErrorPage_events; reflexivity. }
  destruct (handleOAuthCallback_cases E s now req)
    as [(e & _ & ->)|[(_ & _ & ->)|[(e & _ & _ & _ & ->)|[(a & e & _ & _ & _ & _ & ->)
       |(a & au & enc & err & Hok & _ & _)]]]];
    [ | | | |eauto];
    cbn [existsb is_set_cookie is_redirect orb];
    match goal with
    | |- context [ErrorPage E ?c ?t ?m] => destruct (Herr c t m) as [-> ->]
    end;
    intros [H|H]; discriminate H.
Qed.

(** X14.  When the provider refuses the code, the callback answers with
    status 500 and the error template showing the provider's error; the
    identity endpoint is not called, no cookie is set and nothing is
    redirected.  The code is sent to the provider as it came, also when it is
    empty. *)
Theorem redeem_failure_is_500 (E : Env) (s : OAuthServer) (now : time.Time)
    (req : http.Request) (e : string) :
  url.Path (http.URL req) = oauthCallbackPath ->
  http.FormErr req = None ->
  url.Get (http.Form req) "error" = "" ->
  slack.RedeemCode (slackOauth s) (url.Get (http.Form req) "code") = Err e ->
  exists tail,
    ServeHTTP E s now req =
      oauth_RedeemCode (url.Get (http.Form req) "code") ::
      rw_WriteHeader 500 ::
      tmpl_ExecuteTemplate "error.html" (ErrorData "500 Internal Error" e) :: tail
    /\ (tail = [] \/ exists msg, tail = [http_Error msg 500]).
Proof.
  intros Hp Hf He Hr. rewrite (ServeHTTP_callback E s now req Hp).
  unfold handleOAuthCallback, http.ParseForm. rewrite Hf, He, Hr. cbn [negb String.eqb].
  destruct (ErrorPage_shape E 500 "Internal Error" e) as (tail & -> & Ht).
  exists tail. split; [reflexivity | exact Ht].
Qed.

(** X15.  When the code is redeemed and the identity endpoint fails, the
    callback answers with status 500 and the error template showing that
    error, after one call to each endpoint; no cookie is set and nothing is
    redirected. *)
Theorem identity_failure_is_500 (E : Env) (s : OAuthServer) (now : time.Time)
    (req : http.Request) (access : slack.Access) (e : string) :
  url.Path (http.URL req) = oauthCallbackPath ->
  http.FormErr req = None ->
  url.Get (http.Form req) "error" = "" ->
  slack.RedeemCode (slackOauth s) (url.Get (http.Form req) "code") = Ok access ->
  Auth_Test E (slack.AccessToken access) = Err e ->
  exists tail,
    ServeHTTP E s now req =
      oauth_RedeemCode (url.Get (http.Form req) "code") ::
      slack_Auth_Test (slack.AccessToken access) ::
      rw_WriteHeader 500 ::
      tmpl_ExecuteTemplate "error.html" (ErrorData "500 Internal Error" e) :: tail
    /\ (tail = [] \/ exists msg, tail = [http_Error msg 500]).
Proof.
  intros Hp Hf He Hr Ha. rewrite (ServeHTTP_callback E s now req Hp).
  unfold handleOAuthCallback, http.ParseForm. rewrite Hf, He, Hr, Ha. cbn [negb String.eqb].
  destruct (ErrorPage_shape E 500 "Internal Error" e) as (tail & -> & Ht).
  exists tail. split; [reflexivity | exact Ht].
Qed.

(** X16.  When the form of a callback does not parse, the answer is status
    500 and the error template showing the parse error, and the provider is
    not called, whatever parameters the form holds. *)
Theorem callback_with_bad_form_is_500 (E : Env) (s : OAuthServer) (now : time.Time)
    (req : http.Request) (e : string) :
  url.Path (http.URL req) = oauthCallbackPath ->
  http.FormErr req = Some e ->
  (exists tail,
     ServeHTTP E s now req =
       rw_WriteHeader 500 ::
       tmpl_ExecuteTemplate "error.html" (ErrorData "500 Internal Error" e) :: tail
     /\ (tail = [] \/ exists msg, tail = [http_Error msg 500]))
  /\ existsb is_provider_call (ServeHTTP E s now req) = false.
Proof.
  intros Hp Hf. rewrite (ServeHTTP_callback E s now req Hp).
  unfold handleOAuthCallback, http.ParseForm. rewrite Hf.
  split; [|apply ErrorPage_events; reflexivity].
  destruct (ErrorPage_shape E 500 "Internal Error" e) as (tail & -> & Ht).
  exists tail. split; [reflexivity | exact Ht].
Qed.

(** X17.  A session issued by the callback is honoured by the gate: when the
    codec decodes the value it encoded back to the same identity, a later
    request past the control paths that carries the issued cookie first
    under the session's name is forwarded exactly when the validator accepts
    that identity for the upstream, and gets the sign-in response
    otherwise. *)
Theorem issued_session_is_honoured (E : Env) (s : OAuthServer) (now later : time.Time)
    (req_cb req : http.Request) (access : slack.Access) (auth : slack.Auth)
    (encoded : string) (handler : http.Handler) (pattern : string)
    (upstream : UpstreamConfiguration) :
  url.Path (http.URL req_cb) = oauthCallbackPath ->
  callback_authenticates E s req_cb access auth ->
  securecookie.Encode (secureCookie s) (CookieKey s) auth = (encoded, None) ->
  securecookie.Decode (secureCookie s) (CookieKey s) encoded slack.new_Auth = (auth, None) ->
  special_path (url.Path (http.URL req)) = false ->
  mux_Handler E (serveMux s) req = (handler, pattern) ->
  lookup_upstream s pattern = Some upstream ->
  (exists c, List.filter is_set_cookie (ServeHTTP E s now req_cb) = [http_SetCookie c]
     /\ http.Name c = CookieKey s
     /\ http.Cookie_of req (http.Name c) = Some (http.Value c)) ->
  ServeHTTP E s later req =
    if Validator s auth upstream then [handler_ServeHTTP handler req]
    else handleSignIn E s later req.
Proof.
  intros Hcb Ha He Hd Hp Hm Hl (c & Hc & Hn & Hreq).
  rewrite (ServeHTTP_callback E s now req_cb Hcb) in Hc.
  rewrite (callback_success E s now req_cb access auth encoded Ha He) in Hc.
  cbn in Hc. injection Hc as <-. cbn in Hreq.
  rewrite (ServeHTTP_routed E s later req handler pattern Hp Hm), Hl.
  rewrite (check_cookie_present s req upstream encoded auth None Hreq Hd). reflexivity.
Qed.

(** *** The cookie domain *)

Lemma Split0_cons (c : ascii) (s : string) (sep : ascii) :
  strings.Split0 (String c s) sep =
    if Ascii.eqb c sep then "" else String c (strings.Split0 s sep).
Proof.
  unfold strings.Split0. cbn [strings.Split].
  destruct (Ascii.eqb c sep); [reflexivity|].
  destruct (strings.Split s sep); reflexivity.
Qed.

Lemma Split0_no_sep (d : string) (sep : ascii) :
  strings.ContainsByte d sep = false -> strings.Split0 d sep = d.
Proof.
  induction d as [|c d IH]; [reflexivity|].
  cbn [strings.ContainsByte]. rewrite orb_false_iff. intros [Hc Hd].
  rewrite Split0_cons, Hc, (IH Hd). reflexivity.
Qed.

Lemma Split0_before_sep (d rest : string) (sep : ascii) :
  strings.ContainsByte d sep = false ->
  strings.Split0 (d ++ String sep rest) sep = d.
Proof.
  induction d as [|c d IH].
  - intros _. change ("" ++ String sep rest) with (String sep rest).
    rewrite Split0_cons, Ascii.eqb_refl. reflexivity.
  - cbn [strings.ContainsByte]. rewrite orb_false_iff. intros [Hc Hd].
    rewrite app_cons, Split0_cons, Hc, (IH Hd). reflexivity.
Qed.

(** X18.  The port of the request host has no influence on the cookie
    domain: a host name followed by a colon and anything gets the domain the
    bare host name gets. *)
Theorem port_does_not_change_cookie_domain (s : OAuthServer) (req req' : http.Request)
    (d port : string) :
  strings.ContainsByte d ":" = false ->
  http.Host req = d ++ ":" ++ port ->
  http.Host req' = d ->
  getCookieDomain s req = getCookieDomain s req'.
Proof.
  intros Hd H1 H2. unfold getCookieDomain. rewrite H1, H2.
  change (":" ++ port) with (String ":" port).
  rewrite (Split0_before_sep d port ":" Hd), (Split0_no_sep d ":" Hd). reflexivity.
Qed.

(** X19.  When the configured cookie domain holds no colon, neither does the
    domain of any cookie: a port never reaches the Domain attribute. *)
Theorem cookie_domain_has_no_port (s : OAuthServer) (req : http.Request) :
  strings.ContainsByte (CookieDomain (config s)) ":" = false ->
  strings.ContainsByte (getCookieDomain s req) ":" = false.
Proof.
  intros Hc. unfold getCookieDomain.
  destruct (negb _ && _); [exact Hc|].
  exact (proj1 (Split0_spec (http.Host req))).
Qed.

(** X20.  The cookie the sign-in path issues replaces the session cookie
    issued by a callback on the same host: it has the same name, domain and
    path, an empty value, and it expired before the request was served. *)
Theorem sign_in_clears_the_issued_cookie (E : Env) (s : OAuthServer) (now later : time.Time)
    (req_cb req : http.Request) (access : slack.Access) (auth : slack.Auth)
    (encoded : string) :
  url.Path (http.URL req_cb) = oauthCallbackPath ->
  callback_authenticates E s req_cb access auth ->
  securecookie.Encode (secureCookie s) (CookieKey s) auth = (encoded, None) ->
  url.Path (http.URL req) = signInPath ->
  http.Host req = http.Host req_cb ->
  exists issued cleared tail,
    List.filter is_set_cookie (ServeHTTP E s now req_cb) = [http_SetCookie issued]
    /\ ServeHTTP E s later req = http_SetCookie cleared :: tail
    /\ http.Name cleared = http.Name issued
    /\ http.Domain cleared = http.Domain issued
    /\ http.Path cleared = http.Path issued
    /\ http.Value cleared = ""
    /\ time.Before (http.Expires cleared) later.
Proof.
  intros Hcb Ha He Hp Hh.
  rewrite (ServeHTTP_callback E s now req_cb Hcb).
  rewrite (callback_success E s now req_cb access auth encoded Ha He).
  rewrite (ServeHTTP_sign_in E s later req Hp).
  destruct (handleSignIn_shape E s later req) as (tail & -> & _).
  eexists _, _, _. split; [reflexivity|]. split; [reflexivity|]. cbn.
  repeat split.
  - unfold getCookieDomain. rewrite Hh. reflexivity.
  - unfold time.Before, time.Hour, time.Minute, time.Second, time.Nanosecond. lia.
Qed.

(** *** Every request *)


Lemma ErrorPage_status (E : Env) (code : Z) (title message : string) (c : Z) :
  In (rw_WriteHeader c) (ErrorPage E code title message) -> c = code.
Proof.
  destruct (ErrorPage_shape E code title message) as (tail & -> & [->|[msg ->]]); cbn;
    intros H; repeat (destruct H as [H|H]; [congruence|]); contradiction.
Qed.

(** X22.  The only statuses the gate writes itself are 500 and 403, and it
    writes 403 only on the callback path, for a form that parsed and holds a
    non-empty [error]. *)
Theorem status_403_means_provider_error (E : Env) (s : OAuthServer) (now : time.Time)
    (req : http.Request) (c : Z) :
  In (rw_WriteHeader c) (ServeHTTP E s now req) ->
  c = 500
  \/ c = 403 /\ url.Path (http.URL req) = oauthCallbackPath
     /\ http.FormErr req = None /\ url.Get (http.Form req) "error" <> "".
Proof.
  assert (forall r, ~ In (rw_WriteHeader c) (handleSignIn E s now r)) as Hsign.
  { intros r. destruct (handleSignIn_shape E s now r) as (tail & -> & [->|[msg ->]]); cbn;
      intros H; repeat (destruct H as [H|H]; [discriminate H|]); contradiction. }
  unfold ServeHTTP.
  destruct (String.eqb _ signInPath); [intros H; destruct (Hsign _ H)|].
  destruct (String.eqb _ oauthStartPath).
  { unfold handleOAuthStart. destruct (GetRedirect req) as [t [e|]].
    - intros H. left. exact (ErrorPage_status _ _ _ _ _ H).
    - cbn. intros [H|[]]. discriminate H. }
  destruct (String.eqb _ oauthCallbackPath) eqn:Hp.
  { apply String.eqb_eq in Hp.
    destruct (handleOAuthCallback_cases E s now req)
      as [(e & _ & ->)|[(Hf & He & ->)|[(e & _ & _ & _ & ->)|[(a & e & _ & _ & _ & _ & ->)
         |(a & au & enc & err & _ & _ & ->)]]]].
    - intros H. left. exact (ErrorPage_status _ _ _ _ _ H).
    - intros H. right. rewrite (ErrorPage_status _ _ _ _ _ H). auto.
    - cbn [In]. intros [H|H]; [discriminate H|]. left. exact (ErrorPage_status _ _ _ _ _ H).
    - cbn [In]. intros [H|[H|H]]; try discriminate H.
      left. exact (ErrorPage_status _ _ _ _ _ H).
    - cbn [In]. intros [H|[H|H]]; try discriminate H.
      apply in_app_or in H as [H|H].
      + destruct err; [|destruct H]. left. exact (ErrorPage_status _ _ _ _ _ H).
      + cbn in H. destruct H as [H|[H|[]]]; discriminate H. }
  destruct (strings.HasPrefix _ staticDir).
  { cbn. intros [H|[]]. discriminate H. }
  destruct (mux_Handler E (serveMux s) req) as [handler pattern].
  destruct (lookup_upstream s pattern) as [u|].
  - destruct (negb (check_cookie s req u)); [intros H; destruct (Hsign _ H)|].
    cbn. intros [H|[]]. discriminate H.
  - cbn. intros [H|[]]. discriminate H.
Qed.

(** *** The further statements at concrete requests *)

Lemma static_assets_bypass_gate_witness :
  ServeHTTP Sample.env (Sample.server_of Sample.conf) 1000 Sample.static_req =
    [handler_ServeHTTP (http.FileServer "static")
       (http.with_URL Sample.static_req
          (url.with_Path (http.URL Sample.static_req) "/css/site.css"))].
Proof.
  apply (static_assets_bypass_gate Sample.env (Sample.server_of Sample.conf) 1000
           Sample.static_req "/css/site.css").
  reflexivity.
Defined.

Lemma anonymous_request_gets_sign_in_witness :
  ServeHTTP Sample.env (Sample.server_of Sample.conf) 1000 Sample.anonymous_req
    = handleSignIn Sample.env (Sample.server_of Sample.conf) 1000 Sample.anonymous_req.
Proof.
  refine (proj1 (anonymous_request_gets_sign_in Sample.env (Sample.server_of Sample.conf)
            1000 Sample.anonymous_req Sample.root_proxy "/" (clear_path Sample.backend)
            _ _ _ _));
    vm_compute; reflexivity.
Defined.

Lemma forwarded_iff_validator_accepts_witness :
  ServeHTTP Sample.env (Sample.server_of Sample.conf) 1000 Sample.member_req
    = [handler_ServeHTTP Sample.root_proxy Sample.member_req].
Proof.
  refine (proj1 (proj2 (forwarded_iff_validator_accepts Sample.env
            (Sample.server_of Sample.conf) 1000 Sample.member_req Sample.root_proxy "/"
            (clear_path Sample.backend) _ _ _)) _).
  - vm_compute; reflexivity.
  - vm_compute; reflexivity.
  - vm_compute; reflexivity.
  - exists "_slackauthproxy|alice". split; vm_compute; reflexivity.
Defined.

Lemma control_paths_never_forward_witness :
  existsb is_forward
    (ServeHTTP Sample.env (Sample.server_of Sample.conf) 1000 Sample.sign_in_req) = false
  /\ existsb is_not_found
       (ServeHTTP Sample.env (Sample.server_of Sample.conf) 1000 Sample.sign_in_req) = false.
Proof.
  apply (control_paths_never_forward Sample.env (Sample.server_of Sample.conf) 1000
           Sample.sign_in_req).
  left. reflexivity.
Defined.

Lemma start_redirects_to_provider_witness :
  ServeHTTP Sample.env (Sample.server_of Sample.conf) 1000 (Sample.start_req "/dashboard")
    = [http_Redirect "https://slack.com/oauth/authorize?state=/dashboard" 302].
Proof.
  apply (start_redirects_to_provider Sample.env (Sample.server_of Sample.conf) 1000
           (Sample.start_req "/dashboard")); reflexivity.
Defined.


Lemma callback_cookie_needs_provider_witness :
  exists access auth,
    callback_authenticates Sample.env (Sample.server_of Sample.conf)
      (Sample.callback_req "/dashboard") access auth.
Proof.
  apply (callback_cookie_needs_provider Sample.env (Sample.server_of Sample.conf) 1000
           (Sample.callback_req "/dashboard")).
  - reflexivity.
  - left. vm_compute; reflexivity.
Defined.

Lemma redeem_failure_is_500_witness :
  exists tail,
    ServeHTTP Sample.env (Sample.server_of Sample.conf) 1000 Sample.no_code_req =
      oauth_RedeemCode (url.Get (http.Form Sample.no_code_req) "code") ::
      rw_WriteHeader 500 ::
      tmpl_ExecuteTemplate "error.html" (ErrorData "500 Internal Error" "invalid_code") :: tail
    /\ (tail = [] \/ exists msg, tail = [http_Error msg 500]).
Proof.
  apply (redeem_failure_is_500 Sample.env (Sample.server_of Sample.conf) 1000
           Sample.no_code_req "invalid_code"); vm_compute; reflexivity.
Defined.

Lemma identity_failure_is_500_witness :
  exists tail,
    ServeHTTP Sample.env_down (Sample.server_of Sample.conf) 1000
      (Sample.callback_req "/dashboard") =
      oauth_RedeemCode (url.Get (http.Form (Sample.callback_req "/dashboard")) "code") ::
      slack_Auth_Test (slack.AccessToken Sample.access_abc) ::
      rw_WriteHeader 500 ::
      tmpl_ExecuteTemplate "error.html" (ErrorData "500 Internal Error" "account_inactive")
      :: tail
    /\ (tail = [] \/ exists msg, tail = [http_Error msg 500]).
Proof.
  apply (identity_failure_is_500 Sample.env_down (Sample.server_of Sample.conf) 1000
           (Sample.callback_req "/dashboard") Sample.access_abc "account_inactive");
    vm_compute; reflexivity.
Defined.

Lemma callback_with_bad_form_is_500_witness :
  existsb is_provider_call
    (ServeHTTP Sample.env (Sample.server_of Sample.conf) 1000 Sample.denied_malformed_req)
  = false.
Proof.
  refine (proj2 (callback_with_bad_form_is_500 Sample.env (Sample.server_of Sample.conf)
                   1000 Sample.denied_malformed_req "invalid URL escape %zz" _ _));
    reflexivity.
Defined.

Lemma issued_session_is_honoured_witness :
  ServeHTTP Sample.env_min (Sample.server_of Sample.conf) 2000 Sample.member_req =
    if Validator (Sample.server_of Sample.conf) Sample.alice_min (clear_path Sample.backend)
    then [handler_ServeHTTP Sample.root_proxy Sample.member_req]
    else handleSignIn Sample.env_min (Sample.server_of Sample.conf) 2000 Sample.member_req.
Proof.
  apply (issued_session_is_honoured Sample.env_min (Sample.server_of Sample.conf) 1000 2000
           (Sample.callback_req "/dashboard") Sample.member_req Sample.access_abc
           Sample.alice_min "_slackauthproxy|alice" Sample.root_proxy "/"
           (clear_path Sample.backend)).
  - reflexivity.
  - repeat split; vm_compute; reflexivity.
  - vm_compute; reflexivity.
  - vm_compute; reflexivity.
  - vm_compute; reflexivity.
  - vm_compute; reflexivity.
  - vm_compute; reflexivity.
  - eexists. split; [reflexivity|]. split; vm_compute; reflexivity.
Defined.

Lemma port_does_not_change_cookie_domain_witness :
  getCookieDomain (Sample.server_of Sample.conf) Sample.anonymous_req
    = getCookieDomain (Sample.server_of Sample.conf) Sample.unmapped_req.
Proof.
  apply (port_does_not_change_cookie_domain (Sample.server_of Sample.conf)
           Sample.anonymous_req Sample.unmapped_req "app.example.com" "8080");
    reflexivity.
Defined.

Lemma cookie_domain_has_no_port_witness :
  strings.ContainsByte
    (getCookieDomain (Sample.server_of Sample.conf) Sample.anonymous_req) ":" = false.
Proof.
  apply (cookie_domain_has_no_port (Sample.server_of Sample.conf) Sample.anonymous_req).
  vm_compute; reflexivity.
Defined.

Lemma sign_in_clears_the_issued_cookie_witness :
  exists issued cleared tail,
    List.filter is_set_cookie
      (ServeHTTP Sample.env (Sample.server_of Sample.conf) 1000
         (Sample.callback_req "/dashboard")) = [http_SetCookie issued]
    /\ ServeHTTP Sample.env (Sample.server_of Sample.conf) 2000 Sample.sign_in_again_req
       = http_SetCookie cleared :: tail
    /\ http.Name cleared = http.Name issued
    /\ http.Domain cleared = http.Domain issued
    /\ http.Path cleared = http.Path issued
    /\ http.Value cleared = ""
    /\ time.Before (http.Expires cleared) 2000.
Proof.
  apply (sign_in_clears_the_issued_cookie Sample.env (Sample.server_of Sample.conf) 1000 2000
           (Sample.callback_req "/dashboard") Sample.sign_in_again_req Sample.access_abc
           Sample.alice "_slackauthproxy|alice").
  - reflexivity.
  - repeat split; vm_compute; reflexivity.
  - vm_compute; reflexivity.
  - reflexivity.
  - reflexivity.
Defined.

Lemma status_403_means_provider_error_witness :
  403 = 500
  \/ 403 = 403 /\ url.Path (http.URL Sample.denied_req) = oauthCallbackPath
     /\ http.FormErr Sample.denied_req = None
     /\ url.Get (http.Form Sample.denied_req) "error" <> "".
Proof.
  apply (status_403_means_provider_error Sample.env (Sample.server_of Sample.conf) 1000
           Sample.denied_req 403).
  vm_compute. left. reflexivity.
Defined.

(** *** The cookie domain of a bracketed host *)

(** C9 (the code departs from the claim).  For a request host that is an
    IPv6 literal in brackets, with or without a port, the session cookie of a
    successful callback has every attribute the claim gives it but the
    domain: with no cookie domain configured, the domain is the opening
    bracket and the text of the address before its first colon, which is not
    the host with its port stripped. *)
Theorem bracketed_host_domain_is_cut (E : Env) (s : OAuthServer) (now : time.Time)
    (req : http.Request) (access : slack.Access) (auth : slack.Auth) (encoded : string)
    (a b port : string) :
  url.Path (http.URL req) = oauthCallbackPath ->
  callback_authenticates E s req access auth ->
  securecookie.Encode (secureCookie s) (CookieKey s) auth = (encoded, None) ->
  CookieDomain (config s) = "" ->
  strings.ContainsByte a ":" = false ->
  http.Host req = "[" ++ a ++ ":" ++ b ++ "]" ++ port ->
  List.filter is_set_cookie (ServeHTTP E s now req) =
    [http_SetCookie {| http.Name := CookieKey s; http.Value := encoded; http.Path := "/";
                       http.Domain := "[" ++ a;
                       http.Expires := now + 7 * (24 * time.Hour);
                       http.HttpOnly := true |}]
  /\ "[" ++ a <> "[" ++ a ++ ":" ++ b ++ "]".
Proof.
  intros Hp Ha He Hd Hc Hh.
  rewrite (ServeHTTP_callback E s now req Hp).
  rewrite (callback_success E s now req access auth encoded Ha He).
  cbn [List.filter is_set_cookie]. split.
  - do 2 f_equal. unfold getCookieDomain. rewrite Hd, Hh. cbn [String.eqb negb andb].
    replace (now + 168 * time.Hour) with (now + 7 * (24 * time.Hour)) by lia. f_equal.
    change ("[" ++ a ++ ":" ++ b ++ "]" ++ port)
      with (("[" ++ a) ++ String ":" (b ++ "]" ++ port)).
    apply Split0_before_sep. change ("[" ++ a) with (String "[" a).
    cbn [strings.ContainsByte]. rewrite Hc. reflexivity.
  - intros Heq. apply (f_equal String.length) in Heq.
    rewrite !length_app in Heq. cbn in Heq. lia.
Qed.

(** C9 at a callback for the host [::1]:8080. *)
Lemma bracketed_host_domain_is_cut_witness :
  List.filter is_set_cookie
    (ServeHTTP Sample.env (Sample.server_of Sample.conf_wiki_only) 1000
       Sample.ipv6_callback_req) =
    [http_SetCookie {| http.Name := "_slackauthproxy"; http.Value := "_slackauthproxy|alice";
                       http.Path := "/"; http.Domain := "[";
                       http.Expires := 1000 + 7 * (24 * time.Hour);
                       http.HttpOnly := true |}]
  /\ "[" <> "[::1]".
Proof.
  apply (bracketed_host_domain_is_cut Sample.env (Sample.server_of Sample.conf_wiki_only)
           1000 Sample.ipv6_callback_req Sample.access_abc Sample.alice
           "_slackauthproxy|alice" "" ":1" ":8080").
  - reflexivity.
  - repeat split; vm_compute; reflexivity.
  - vm_compute; reflexivity.
  - reflexivity.
  - reflexivity.
  - reflexivity.
Defined.
